(** * US-FoodScope: the county-profile RAG pipeline

    A shallow embedding of [health/serving/generate_assets.py] (the offline
    asset generator and the profile builder [row_to_text]) and of
    [health/serving/rag_service.py] ([RAGService.initialize], [retrieve],
    [ask]) together with the [/ask] endpoint of [health/serving/app.py]. *)

From Stdlib Require Import String Ascii Bool Arith Lia ZArith QArith List Permutation.
Import ListNotations.

(* ------------------------------------------------------------------------- *)
(** ** Python / pandas cell values *)

(** A cell of a pandas row.  Numbers are kept as their Python [repr]
    (the profile builder only ever formats them); [PyNaN] is the missing
    value pandas produces for an empty CSV cell or an unmatched left join. *)
Inductive Value :=
| PyNone
| PyNaN
| PyStr (s : string)
| PyNum (repr : string)
| PyBool (b : bool).

(** [str(v)], as used inside an f-string. *)
Definition py_str (v : Value) : string :=
  match v with
  | PyNone => "None"
  | PyNaN => "nan"
  | PyStr s => s
  | PyNum r => r
  | PyBool true => "True"
  | PyBool false => "False"
  end.

(** [pd.notna(v)] on a scalar. *)
Definition notna (v : Value) : bool :=
  match v with
  | PyNone | PyNaN => false
  | _ => true
  end.

(** Equality of join keys as pandas' merge uses it (NaN keys match). *)
Definition value_eqb (a b : Value) : bool :=
  match a, b with
  | PyNone, PyNone | PyNaN, PyNaN => true
  | PyStr x, PyStr y => String.eqb x y
  | PyNum x, PyNum y => String.eqb x y
  | PyBool x, PyBool y => Bool.eqb x y
  | _, _ => false
  end.

(** A pandas row (a [Series] indexed by column name). *)
Definition Row := list (string * Value).

(** [row.get(key, default)]. *)
Fixpoint get (row : Row) (key : string) (default : Value) : Value :=
  match row with
  | [] => default
  | (k, v) :: rest => if String.eqb k key then v else get rest key default
  end.

(* ------------------------------------------------------------------------- *)
(** ** Profile Builder: [row_to_text] *)

Local Open Scope string_scope.

Definition nl : string := String (ascii_of_nat 10) EmptyString.

Definition row_to_text (row : Row) : string :=
  let county := get row "County" (PyStr "Unknown County") in
  let state := get row "State" (PyStr "Unknown State") in
  let pop := get row "Population" (PyStr "N/A") in
  let poverty := get row "Poverty_Rate" (PyStr "N/A") in
  let income := get row "Median_Income" (PyStr "N/A") in
  let obesity := get row "Adult_Obesity_Rate13" (PyStr "N/A") in
  let diabetes := get row "Adult_Diabetes_Rate13" (PyStr "N/A") in
  let grocery := get row "Grocery_Stores_Per1000" (PyStr "N/A") in
  let farmers := get row "Farmers_Markets_Count_16" (PyStr "N/A") in
  let insecurity := get row "FOODINSEC_13_15" (PyStr "N/A") in
  let low_access := get row "PCT_LACCESS_POP15" (PyStr "N/A") in
  let ff_restaurants := get row "FFRPTH14" (PyStr "N/A") in
  let gyms := get row "GYMs_Per_1000_Count_14" (PyStr "N/A") in
  let text := "Comprehensive Profile for " ++ py_str county ++ ", "
              ++ py_str state ++ ":" ++ nl in
  let text :=
    if notna (get row "composite_risk" PyNone) then
      let risk := get row "composite_risk" PyNone in
      let cluster := get row "Cluster" PyNone in
      let text := text ++ "!!! ALERT: This county is identified as a Highest Composite Health Risk area (Cluster "
                  ++ py_str cluster ++ ")." ++ nl in
      text ++ "- Composite Health Risk Score: " ++ py_str risk ++ "." ++ nl
    else text in
  let text := text ++ "- Demographics: Population: " ++ py_str pop
              ++ ", Poverty Rate: " ++ py_str poverty ++ "%, Median Income: $"
              ++ py_str income ++ "." ++ nl in
  let text := text ++ "- Health Outcomes: Adult Obesity Rate: " ++ py_str obesity
              ++ "%, Adult Diabetes Rate: " ++ py_str diabetes ++ "%." ++ nl in
  let text := text ++ "- Food Environment: " ++ py_str grocery
              ++ " grocery stores per 1k residents, " ++ py_str farmers
              ++ " farmers markets. " in
  let text := text ++ "Fast food density: " ++ py_str ff_restaurants
              ++ "/1k residents." ++ nl in
  let text := text ++ "- Food Security: Food insecurity: " ++ py_str insecurity
              ++ "%. " ++ py_str low_access ++ "% of pop. has low food access." ++ nl in
  let text := text ++ "- Physical Activity: Gym density: " ++ py_str gyms
              ++ "/1k residents." ++ nl in
  let text :=
    if notna (get row "Description" PyNone) then
      text ++ "- Environmental Context: " ++ py_str (get row "Description" PyNone) ++ nl
    else text in
  let text :=
    if notna (get row "Rule_Description" PyNone) then
      text ++ "- Policy Context: " ++ py_str (get row "Rule_Description" PyNone) ++ nl
    else text in
  text.

(** The header line the profile starts with. *)
Definition profile_header (row : Row) : string :=
  "Comprehensive Profile for " ++ py_str (get row "County" (PyStr "Unknown County"))
  ++ ", " ++ py_str (get row "State" (PyStr "Unknown State")) ++ ":" ++ nl.

(** The risk-alert line written by the risk section. *)
Definition alert_line (row : Row) : string :=
  "!!! ALERT: This county is identified as a Highest Composite Health Risk area (Cluster "
  ++ py_str (get row "Cluster" PyNone) ++ ")." ++ nl.

Local Close Scope string_scope.

(* ------------------------------------------------------------------------- *)
(** ** Python floats and embedding vectors *)

(** A Python [float]: finite values (as exact rationals), the two infinities
    and NaN.  Only comparisons are needed, and these follow IEEE-754: every
    comparison with NaN is false. *)
Inductive PyFloat :=
| FNum (q : Q)
| FInf
| FNegInf
| FNaN.

(** [a < b]. *)
Definition py_lt (a b : PyFloat) : bool :=
  match a, b with
  | FNum x, FNum y => negb (Qle_bool y x)
  | FNegInf, (FNum _ | FInf) => true
  | FNum _, FInf => true
  | _, _ => false
  end.

(** [a <= b]. *)
Definition py_le (a b : PyFloat) : bool :=
  match a, b with
  | FNum x, FNum y => Qle_bool x y
  | FNegInf, (FNum _ | FInf | FNegInf) => true
  | (FNum _ | FInf), FInf => true
  | _, _ => false
  end.

(** Python's builtin [min(a, b)]: keeps [a] unless [b < a]. *)
Definition py_min (a b : PyFloat) : PyFloat := if py_lt b a then b else a.

(** Python's builtin [max(a, b)]: keeps [a] unless [b > a]. *)
Definition py_max (a b : PyFloat) : PyFloat := if py_lt a b then b else a.

(** A float32 embedding row. *)
Definition Vec := list Q.

(** Inner product, as [IndexFlatIP] scores a stored vector against a query. *)
Fixpoint inner (u v : Vec) : Q :=
  match u, v with
  | x :: u', y :: v' => x * y + inner u' v'
  | _, _ => 0
  end.

(* ------------------------------------------------------------------------- *)
(** ** Chunks, the FAISS index and the embedding model *)

Record Metadata := {
  meta_county : Value;
  meta_state : Value;
  is_high_risk : bool
}.

Record Chunk := {
  text : string;
  metadata : Metadata;
  chunk_id : nat
}.

(** [faiss.IndexFlatIP]: the stored vectors, in insertion order. *)
Record Index := {
  ix_dim : nat;
  ix_vectors : list Vec
}.

Definition ntotal (ix : Index) : nat := length (ix_vectors ix).

(** [faiss.IndexFlatIP(d)]. *)
Definition IndexFlatIP (d : nat) : Index := {| ix_dim := d; ix_vectors := [] |}.

(** [index.add(xs)]: appends the rows of [xs]. *)
Definition index_add (ix : Index) (xs : list Vec) : Index :=
  {| ix_dim := ix_dim ix; ix_vectors := ix_vectors ix ++ xs |}.

(** A loaded [SentenceTransformer]; [model.encode(texts)] encodes each text
    of the batch, in order. *)
Record Model := {
  model_id : string;
  encode_one : string -> Vec
}.

Definition encode (m : Model) (texts : list string) : list Vec :=
  map (encode_one m) texts.

(** [NPY_MAX_INTP] on a 64-bit platform: no numpy array holds more bytes. *)
Definition NPY_MAX_INTP : Z := (2 ^ 63 - 1)%Z.

Section Pipeline.

(** [faiss.normalize_L2], applied row by row.  Its floating-point arithmetic
    is left abstract: no claim depends on it. *)
Variable normalize_L2 : Vec -> Vec.

(** The largest [k] for which this machine allocates the [(1, k)] result
    arrays [D] (float32) and [I] (int64) of [index.search]: at most
    [NPY_MAX_INTP / 8], numpy's size limit for [I]; beyond it [np.empty]
    raises. *)
Variable max_search_k : Z.

(* ------------------------------------------------------------------------- *)
(** ** The offline asset generator: [generate_assets] *)

(** A pandas [DataFrame]: its index labels and its rows. *)
Record DataFrame := {
  df_labels : list nat;
  df_rows : list Row
}.

(** [pd.read_csv(path)]: a fresh [RangeIndex]. *)
Definition read_csv (rows : list Row) : DataFrame :=
  {| df_labels := seq 0 (length rows); df_rows := rows |}.

Definition same_key (a b : Row) : bool :=
  value_eqb (get a "County" PyNone) (get b "County" PyNone)
  && value_eqb (get a "State" PyNone) (get b "State" PyNone).

(** [pd.merge(df_main, df_worst[['County','State','composite_risk']],
    on=['County','State'], how='left')]: left order preserved, one output
    row per match (NaN when there is none), and a fresh [RangeIndex]. *)
Definition merge_left (main worst : DataFrame) : DataFrame :=
  let rows :=
    flat_map (fun r =>
      match filter (same_key r) (df_rows worst) with
      | [] => [r ++ [("composite_risk"%string, PyNaN)]]
      | ms => map (fun w => r ++ [("composite_risk"%string,
                                   get w "composite_risk" PyNaN)]) ms
      end) (df_rows main) in
  {| df_labels := seq 0 (length rows); df_rows := rows |}.

(** [df.iterrows()]. *)
Definition iterrows (df : DataFrame) : list (nat * Row) :=
  combine (df_labels df) (df_rows df).

Definition row_metadata (row : Row) : Metadata :=
  {| meta_county := get row "County" PyNone;
     meta_state := get row "State" PyNone;
     is_high_risk := notna (get row "composite_risk" PyNone) |}.

(** The two artifacts written by one build: [faiss_index.bin], [chunks.pkl]. *)
Record Artifacts := {
  art_index : Index;
  art_chunks : list Chunk
}.

Definition combined_frame (main_csv : list Row) (worst_csv : option (list Row))
  : DataFrame :=
  let df_main := read_csv main_csv in
  match worst_csv with
  | Some w => merge_left df_main (read_csv w)
  | None => df_main
  end.

(** [generate_assets]: [worst_csv = None] when the risk file does not exist.
    [None] is the [IndexError] of [embeddings.shape[1]] on an empty frame. *)
Definition generate_assets (m : Model) (main_csv : list Row)
    (worst_csv : option (list Row)) : option Artifacts :=
  let df_combined := combined_frame main_csv worst_csv in
  let rows := iterrows df_combined in
  let chunks := map (fun '(i, row) =>
        {| text := row_to_text row; metadata := row_metadata row;
           chunk_id := i |}) rows in
  let texts := map (fun '(_, row) => row_to_text row) rows in
  let embeddings := map normalize_L2 (encode m texts) in
  match embeddings with
  | [] => None
  | e :: _ =>
      let index := index_add (IndexFlatIP (length e)) embeddings in
      Some {| art_index := index; art_chunks := chunks |}
  end.


(* ------------------------------------------------------------------------- *)
(** ** The service object and its effects *)

(** A [Groq] client. *)
Record Client := { api_key : string }.

(** The fields of a [RAGService] instance. *)
Record RAGService := {
  csv_path : string;
  index_path : string;
  chunks_path : string;
  model_name : string;
  model : option Model;
  index : option Index;
  chunks : list Chunk;
  client : option Client;
  initialized : bool
}.

(** [RAGService()] with its default arguments. *)
Definition new_service : RAGService :=
  {| csv_path := "rag_df.csv"; index_path := "faiss_index.bin";
     chunks_path := "chunks.pkl"; model_name := "all-MiniLM-L6-v2";
     model := None; index := None; chunks := []; client := None;
     initialized := false |}.

Definition set_model (m : option Model) (s : RAGService) : RAGService :=
  {| csv_path := csv_path s; index_path := index_path s;
     chunks_path := chunks_path s; model_name := model_name s; model := m;
     index := index s; chunks := chunks s; client := client s;
     initialized := initialized s |}.

Definition set_index (ix : option Index) (s : RAGService) : RAGService :=
  {| csv_path := csv_path s; index_path := index_path s;
     chunks_path := chunks_path s; model_name := model_name s; model := model s;
     index := ix; chunks := chunks s; client := client s;
     initialized := initialized s |}.

Definition set_chunks (cs : list Chunk) (s : RAGService) : RAGService :=
  {| csv_path := csv_path s; index_path := index_path s;
     chunks_path := chunks_path s; model_name := model_name s; model := model s;
     index := index s; chunks := cs; client := client s;
     initialized := initialized s |}.

Definition set_client (c : option Client) (s : RAGService) : RAGService :=
  {| csv_path := csv_path s; index_path := index_path s;
     chunks_path := chunks_path s; model_name := model_name s; model := model s;
     index := index s; chunks := chunks s; client := c;
     initialized := initialized s |}.

Definition set_initialized (b : bool) (s : RAGService) : RAGService :=
  {| csv_path := csv_path s; index_path := index_path s;
     chunks_path := chunks_path s; model_name := model_name s; model := model s;
     index := index s; chunks := chunks s; client := client s;
     initialized := b |}.

(** The process's world: what [SentenceTransformer(name)] loads ([None]: it
    raises), the files [faiss.read_index] and [pickle.load] read
    ([None]: [os.path.exists] is false), [os.environ.get("GROQ_API_KEY")],
    and the remote completion ([inl msg]: the call raises with [msg]). *)
Record Env := {
  env_load_model : string -> option Model;
  env_index_file : string -> option Index;
  env_chunks_file : string -> option (list Chunk);
  env_groq_key : option string;
  env_complete : string -> string + string
}.

(** Observable effects, in order. *)
Inductive Event :=
| Print (s : string)
| Encode (texts : list string)
| Search (k : Z)
| Complete (prompt : string).

(** A raised Python exception. *)
Inductive Exn := PyExc (name msg : string).

(** Methods mutate [self] in place: the object's state survives an
    exception, so the state is returned on both outcomes. *)
Definition M (A : Type) := RAGService -> list Event * RAGService * (Exn + A).

Definition ret {A} (a : A) : M A := fun s => ([], s, inr a).
Definition bind {A B} (m : M A) (k : A -> M B) : M B :=
  fun s => match m s with
           | (ev, s', inl e) => (ev, s', inl e)
           | (ev, s', inr a) =>
               let '(ev', s'', r) := k a s' in (ev ++ ev', s'', r)
           end.
Definition raise {A} (e : Exn) : M A := fun s => ([], s, inl e).
Definition emit (e : Event) : M unit := fun s => ([e], s, inr tt).
Definition modify (f : RAGService -> RAGService) : M unit :=
  fun s => ([], f s, inr tt).
Definition gets {A} (f : RAGService -> A) : M A := fun s => ([], s, inr (f s)).

Notation "x <- m ;; k" := (bind m (fun x => k))
  (at level 61, m at next level, right associativity).
Notation "m ;;; k" := (bind m (fun _ => k)) (at level 61, right associativity).

(* ------------------------------------------------------------------------- *)
(** ** [RAGService.initialize] *)

Local Open Scope string_scope.

(** [if api_key:] on the result of [os.environ.get]. *)
Definition truthy_str (o : option string) : option string :=
  match o with
  | Some k => if String.eqb k "" then None else Some k
  | None => None
  end.

Definition initialize (env : Env) : M unit :=
  done <- gets initialized ;;
  if done then ret tt else
  name <- gets model_name ;;
  emit (Print ("Loading embedding model: " ++ name ++ "...")) ;;;
  match env_load_model env name with
  | None => raise (PyExc "OSError" name)
  | Some m =>
    modify (set_model (Some m)) ;;;
    ipath <- gets index_path ;;
    match env_index_file env ipath with
    | Some ix => emit (Print ("Loading FAISS index from " ++ ipath ++ "...")) ;;;
                 modify (set_index (Some ix))
    | None => emit (Print ("Warning: " ++ ipath ++ " not found. RAG will not work."))
    end ;;;
    cpath <- gets chunks_path ;;
    match env_chunks_file env cpath with
    | Some cs => emit (Print ("Loading chunks from " ++ cpath ++ "...")) ;;;
                 modify (set_chunks cs)
    | None => emit (Print ("Warning: " ++ cpath ++ " not found."))
    end ;;;
    match truthy_str (env_groq_key env) with
    | Some k => modify (set_client (Some {| api_key := k |}))
    | None => emit (Print "Warning: GROQ_API_KEY not found in environment.")
    end ;;;
    modify (set_initialized true)
  end.

Local Close Scope string_scope.

(* ------------------------------------------------------------------------- *)
(** ** [IndexFlatIP.search] *)

(** Insert into a list ranked by descending score; an element goes in front
    of every element it does not score strictly below, so that when the
    list is built from the back, ties keep the smaller label first. *)
Fixpoint insert_ranked (x : Z * PyFloat) (l : list (Z * PyFloat))
  : list (Z * PyFloat) :=
  match l with
  | [] => [x]
  | y :: l' => if py_lt (snd x) (snd y) then y :: insert_ranked x l'
               else x :: y :: l'
  end.

Definition rank (l : list (Z * PyFloat)) : list (Z * PyFloat) :=
  fold_right insert_ranked [] l.

(** Exact search for the [k] best inner products: the labels and scores of
    the best hits, padded with label [-1] (and the lowest score) when [k]
    exceeds [ntotal]. *)
Definition faiss_search (ix : Index) (qv : Vec) (k : Z) : list (Z * PyFloat) :=
  let scored := combine (map Z.of_nat (seq 0 (ntotal ix)))
                        (map (fun v => FNum (inner qv v)) (ix_vectors ix)) in
  let top := firstn (Z.to_nat k) (rank scored) in
  top ++ repeat ((-1)%Z, FNegInf) (Z.to_nat k - length top).

(* ------------------------------------------------------------------------- *)
(** ** [RAGService.retrieve] *)

(** [max(0.0, min(1.0, float(dist)))]. *)
Definition clamp_score (dist : PyFloat) : PyFloat :=
  py_max (FNum 0) (py_min (FNum 1) dist).

(** The loop over [zip(indices[0], distances[0])]. *)
Definition collect (cs : list Chunk) (hits : list (Z * PyFloat))
  : list (Chunk * PyFloat) :=
  flat_map (fun '(idx, dist) =>
    if (0 <=? idx)%Z && (idx <? Z.of_nat (length cs))%Z then
      match nth_error cs (Z.to_nat idx) with
      | Some c => [(c, clamp_score dist)]
      | None => []
      end
    else []) hits.

(** [index.search(x, k)] of FAISS's Python wrapper, for a query array of
    width [d]: [assert d == self.d], [assert k > 0], the allocation of the
    result arrays [D] and [I] of shape [(1, k)], then the search.  [Search k]
    records a search that ran. *)
Definition index_search (ix : Index) (d : nat) (qv : Vec) (k : Z)
  : M (list (Z * PyFloat)) :=
  if negb (Nat.eqb d (ix_dim ix)) then raise (PyExc "AssertionError" "d == self.d") else
  if (k <=? 0)%Z then raise (PyExc "AssertionError" "k > 0") else
  if (max_search_k <? k)%Z then
    raise (PyExc (if (NPY_MAX_INTP <? 8 * k)%Z then "ValueError" else "MemoryError")
                 "np.empty((n, k))") else
  emit (Search k) ;;;
  ret (faiss_search ix qv k).

(** [retrieve(query, top_k)].  A loaded FAISS index object is truthy; an
    empty chunk list is falsy.  [faiss.normalize_L2] works in place, so the
    query array keeps the width of the encoded vector. *)
Definition retrieve (query : string) (top_k : Z) : M (list (Chunk * PyFloat)) :=
  ixo <- gets index ;;
  cs <- gets chunks ;;
  match ixo, cs with
  | None, _ | _, [] => ret []
  | Some ix, _ =>
    mo <- gets model ;;
    match mo with
    | None => raise (PyExc "AttributeError" "encode")
    | Some m =>
      emit (Encode [query]) ;;;
      let q := encode_one m query in
      let qv := normalize_L2 q in
      hits <- index_search ix (length q) qv top_k ;;
      ret (collect cs hits)
    end
  end.

(* ------------------------------------------------------------------------- *)
(** ** [RAGService.ask] *)

Local Open Scope string_scope.

Fixpoint py_join (sep : string) (l : list string) : string :=
  match l with
  | [] => ""
  | [x] => x
  | x :: l' => x ++ sep ++ py_join sep l'
  end.

Definition dq : string := String (ascii_of_nat 34) EmptyString.
Definition ind : string := "        ".

(** The f-string of [ask], line by line. *)
Definition build_prompt (context query : string) : string :=
  py_join nl
    [ "";
      ind ++ "You are an expert in U.S. food environment and health analysis. ";
      ind ++ "Use the following retrieved context to answer the user's question accurately.";
      ind;
      ind ++ "FORMATTING & STYLE RULES:";
      ind ++ "1. NEVER mention words like " ++ dq ++ "context" ++ dq ++ ", "
          ++ dq ++ "provided data" ++ dq ++ ", " ++ dq ++ "the text above" ++ dq
          ++ ", or " ++ dq ++ "based on the information" ++ dq ++ " in your response.";
      ind ++ "2. Speak directly as an expert performing the analysis.";
      ind ++ "3. Use **bold text** for key metrics like percentages or scores.";
      ind ++ "4. Use bullet points for lists of facts or recommendations.";
      ind ++ "5. Use Markdown TABLES when comparing data for two or more counties.";
      ind ++ "6. Keep your tone professional, authoritative, and data-driven.";
      ind;
      ind ++ "Context:";
      ind ++ context;
      ind;
      ind ++ "User Question: " ++ query;
      ind;
      ind ++ "Answer:";
      ind ].

Definition source_tag (r : Chunk * PyFloat) : string :=
  let c := fst r in
  "[Source: " ++ py_str (meta_county (metadata c)) ++ ", "
  ++ py_str (meta_state (metadata c)) ++ "] " ++ text c.

(** One entry of [sources]: [c.metadata.copy()] with ["similarity"] added. *)
Record Source := {
  src_metadata : Metadata;
  similarity : PyFloat
}.

Definition to_source (r : Chunk * PyFloat) : Source :=
  {| src_metadata := metadata (fst r); similarity := snd r |}.

(** The dictionary [ask] returns. *)
Inductive AskResult :=
| AskError (error : string)
| AskAnswer (answer : string) (sources : list Source) (context_used : string).

Definition groq_missing : string :=
  "Groq client not initialized. Set GROQ_API_KEY environment variable.".

Definition ask (env : Env) (query : string) : M AskResult :=
  done <- gets initialized ;;
  (if done then ret tt else initialize env) ;;;
  cl <- gets client ;;
  match cl with
  | None => ret (AskError groq_missing)
  | Some _ =>
    relevant_chunks <- retrieve query 10 ;;
    let context := py_join (nl ++ nl) (map source_tag relevant_chunks) in
    let prompt := build_prompt context query in
    emit (Complete prompt) ;;;
    match env_complete env prompt with
    | inl msg => ret (AskError msg)
    | inr response_text =>
        ret (AskAnswer response_text (map to_source relevant_chunks) context)
    end
  end.

(* ------------------------------------------------------------------------- *)
(** ** The [/ask] endpoint of [app.py] *)

(** What the handler produces: an [HTTPException] or an [AskResponse].
    An exception of [Exn] escaping the handler is the [inl] outcome of [M]. *)
Inductive AppResponse :=
| HTTPException (status_code : nat) (detail : string)
| AskResponse (answer : string) (sources : list Source).

Definition app_ask (env : Env) (query : string) : M AppResponse :=
  done <- gets initialized ;;
  (if done then ret tt else initialize env) ;;;
  result <- ask env query ;;
  match result with
  | AskError e => ret (HTTPException 500 e)
  | AskAnswer a srcs _ => ret (AskResponse a srcs)
  end.

Local Close Scope string_scope.

End Pipeline.

(* ------------------------------------------------------------------------- *)
(** ** The inference endpoints and the startup loader of [app.py] *)

Local Open Scope nat_scope.
Local Open Scope string_scope.

(** An exception raised inside an endpoint: a Python exception, or a
    FastAPI [HTTPException]. *)
Inductive AppExn :=
| Raised (e : Exn)
| HTTPError (status_code : nat) (detail : string).

(** Decimal digits of [n], in front of [acc]. *)
Fixpoint digits (fuel n : nat) (acc : string) : string :=
  match fuel with
  | O => acc
  | S f =>
      let acc := String (ascii_of_nat (48 + n mod 10)) acc in
      if Nat.ltb n 10 then acc else digits f (n / 10) acc
  end.

(** [str(n)] for a natural number. *)
Definition str_nat (n : nat) : string := digits (S n) n "".

(** [str(e)]: the message of a Python exception; for an [HTTPException],
    Starlette's [__str__], [f"{status_code}: {detail}"]. *)
Definition exn_str (e : AppExn) : string :=
  match e with
  | Raised (PyExc _ msg) => msg
  | HTTPError code detail => str_nat code ++ ": " ++ detail
  end.

(** [str.lower()] on ASCII text. *)
Definition lower_ascii (c : ascii) : ascii :=
  let n := nat_of_ascii c in
  if Nat.leb 65 n && Nat.leb n 90 then ascii_of_nat (n + 32) else c.

Fixpoint py_lower (s : string) : string :=
  match s with
  | EmptyString => EmptyString
  | String c r => String (lower_ascii c) (py_lower r)
  end.

(** [str.strip()] on ASCII text. *)
Definition is_space (c : ascii) : bool :=
  match nat_of_ascii c with
  | 9 | 10 | 11 | 12 | 13 | 32 => true
  | _ => false
  end.

Fixpoint drop_spaces (l : list ascii) : list ascii :=
  match l with
  | [] => []
  | c :: r => if is_space c then drop_spaces r else l
  end.

Definition py_strip (s : string) : string :=
  string_of_list_ascii
    (rev (drop_spaces (rev (drop_spaces (list_ascii_of_string s))))).

(** [row[key]]: [KeyError] when the row has no such column. *)
Fixpoint lookup (row : Row) (key : string) : Exn + Value :=
  match row with
  | [] => inl (PyExc "KeyError" ("'" ++ key ++ "'"))
  | (k, v) :: rest => if String.eqb k key then inr v else lookup rest key
  end.

Definition CLUSTERING_FEATURE_NAMES : list string :=
  ["Adult_Diabetes_Rate_08"; "Adult_Diabetes_Rate13";
   "Adult_Obesity_Rate_08"; "Adult_Obesity_Rate13";
   "GYMs_Per_1000_Count_14"; "Farmers_Markets_Count_16"; "GROCPTH09"].

(** A [PredictionRequest]: its [features] dictionary as an association
    list, looked up with [get]. *)
Record PredictionRequest := {
  model_type : string;
  features : list (string * Value)
}.

(** One entry of [CLUSTERING_DATA]. *)
Record ClusterRecord := {
  cr_county : string;
  cr_state : string;
  cr_risk : PyFloat;
  cr_cluster : Z
}.

Section Endpoints.

(** Fitted scikit-learn estimators and scalers, left abstract. *)
Variable Estimator Scaler : Type.

(** [float(v)] and [int(v)], with the exception they raise. *)
Variable py_float : Value -> Exn + PyFloat.
Variable py_int : Value -> Exn + Z.

(** Steps 2 to 4 of [predict] (encoding, scaling, the final vector); they
    read the loaded encoders and scaler. *)
Variable preprocess : list (string * Value) -> AppExn + Vec.
(** [float(model.predict(X_final)[0])]. *)
Variable est_predict : Estimator -> Vec -> AppExn + PyFloat.
(** Step 6 of [predict], the inverse scaling of a z-score through
    [SCALER.mean_] and [SCALER.scale_]: it runs outside any inner [try], so
    its failures reach the outer [except]. *)
Variable inverse_scale : string -> PyFloat -> AppExn + PyFloat.
(** Step 7 of [predict], the confidence interval from [model.estimators_],
    whose own failures are swallowed by a bare [except]. *)
Variable confidence : string -> Estimator -> Vec -> PyFloat -> PyFloat -> option string.
(** [SCALER_CLUSTERING.transform(X_raw)] and
    [int(MODEL_KMEANS.predict(X_scaled)[0])]. *)
Variable scale_cluster : Scaler -> list PyFloat -> AppExn + list PyFloat.
Variable kmeans_predict : Estimator -> list PyFloat -> AppExn + Z.

(** The module globals of [app.py] the endpoints read. *)
Record AppGlobals := {
  MODEL_OBESITY : option Estimator;
  MODEL_DIABETES : option Estimator;
  MODEL_KMEANS : option Estimator;
  SCALER : option Scaler;
  SCALER_CLUSTERING : option Scaler;
  CLUSTERING_DATA : list ClusterRecord
}.

(** What an endpoint answers: an HTTP error or its response model. *)
Inductive ApiResponse :=
| ApiError (status_code : nat) (detail : string)
| PredictionResponse (prediction : PyFloat) (probability : option string)
    (model_used : string)
| ClusteringResponse (cluster : Z) (features_used : list (string * PyFloat)).

(** [model.predict(...)] on the selected model, [None] when
    [MODEL_DIABETES] was not loaded. *)
Definition call_predict (model : option Estimator) (x : Vec) : AppExn + (Estimator * PyFloat) :=
  match model with
  | None => inl (Raised (PyExc "AttributeError"
                    "'NoneType' object has no attribute 'predict'"))
  | Some est =>
      match est_predict est x with
      | inl e => inl e
      | inr p => inr (est, p)
      end
  end.

(** [POST /predict]. *)
Definition predict (g : AppGlobals) (request : PredictionRequest) : ApiResponse :=
  match MODEL_OBESITY g, SCALER g with
  | Some _, Some _ =>
    let body :=
      let mt := py_lower (model_type request) in
      let selected :=
        if String.eqb mt "obesity" then inr (MODEL_OBESITY g, "Obesity")
        else if String.eqb mt "diabetes" then inr (MODEL_DIABETES g, "Diabetes")
        else inl (HTTPError 400 "Invalid model_type") in
      match selected with
      | inl e => inl e
      | inr (model, target_name) =>
        match preprocess (features request) with
        | inl e => inl e
        | inr x_final =>
          match call_predict model x_final with
          | inl e => inl e
          | inr (est, raw_pred) =>
            match inverse_scale mt raw_pred with
            | inl e => inl e
            | inr prediction_value =>
              let prob_str := confidence mt est x_final raw_pred prediction_value in
              inr (PredictionResponse prediction_value prob_str target_name)
            end
          end
        end
      end in
    match body with
    | inl e => ApiError 500 (exn_str e)
    | inr r => r
    end
  | _, _ => ApiError 503 "Models not loaded"
  end.

(** One feature of [predict_cluster]: missing or [None] is [0.0], and so is
    a value [float] rejects. *)
Definition extract_feature (feats : list (string * Value)) (name : string) : PyFloat :=
  match get feats name PyNone with
  | PyNone => FNum 0
  | v => match py_float v with inr f => f | inl _ => FNum 0 end
  end.

(** [POST /predict-cluster]. *)
Definition predict_cluster (g : AppGlobals) (request : PredictionRequest) : ApiResponse :=
  match MODEL_KMEANS g, SCALER_CLUSTERING g with
  | Some km, Some sc =>
    let raw_inputs := map (extract_feature (features request)) CLUSTERING_FEATURE_NAMES in
    let features_used := combine CLUSTERING_FEATURE_NAMES raw_inputs in
    match scale_cluster sc raw_inputs with
    | inl e => ApiError 500 (exn_str e)
    | inr x_scaled =>
      match kmeans_predict km x_scaled with
      | inl e => ApiError 500 (exn_str e)
      | inr cluster_id => ClusteringResponse cluster_id features_used
      end
    end
  | _, _ => ApiError 503 "Clustering models not loaded"
  end.

(** The dictionary built for one row of [worst_cluster_counties.csv]. *)
Definition cluster_record (row : Row) : Exn + ClusterRecord :=
  match lookup row "County" with inl e => inl e | inr county =>
  match lookup row "State" with inl e => inl e | inr state =>
  match lookup row "composite_risk" with inl e => inl e | inr risk =>
  match py_float risk with inl e => inl e | inr risk =>
  match lookup row "Cluster" with inl e => inl e | inr cluster =>
  match py_int cluster with inl e => inl e | inr cluster =>
  inr {| cr_county := py_strip (py_str county); cr_state := py_strip (py_str state);
         cr_risk := risk; cr_cluster := cluster |}
  end end end end end end.

(** The [for] loop appending to [CLUSTERING_DATA]: it stops at the first
    row that raises, and what was appended stays. *)
Fixpoint append_records (rows : list Row) (data : list ClusterRecord)
  : list ClusterRecord * option Exn :=
  match rows with
  | [] => (data, None)
  | r :: rs =>
      match cluster_record r with
      | inl e => (data, Some e)
      | inr x => append_records rs (data ++ [x])
      end
  end.

(** Step 4 of [load_artifacts]: [file] is the CSV when it exists; the
    result is the new [CLUSTERING_DATA] and the lines printed. *)
Definition load_clustering_data (file : option (list Row)) (data : list ClusterRecord)
  : list ClusterRecord * list string :=
  match file with
  | None => (data, ["Warning: worst_cluster_counties.csv not found."])
  | Some rows =>
      let '(data', err) := append_records rows data in
      (data', "Loading clustering data from worst_cluster_counties.csv..." ::
              match err with
              | None => ["Loaded " ++ str_nat (length data') ++ " clustering records."]
              | Some (PyExc _ msg) => ["Error loading clustering data: " ++ msg]
              end)
  end.

(** [GET /]: [models_loaded] and [clustering_data_loaded]. *)
Definition home (g : AppGlobals) : bool * bool :=
  (match MODEL_OBESITY g, MODEL_KMEANS g with Some _, Some _ => true | _, _ => false end,
   Nat.ltb 0 (length (CLUSTERING_DATA g))).

End Endpoints.

Local Close Scope string_scope.
Local Close Scope nat_scope.

(* ------------------------------------------------------------------------- *)
(** ** Concrete inputs *)

Local Open Scope string_scope.

Definition alpha_chunk : Chunk :=
  {| text := "Comprehensive Profile for Alpha, CA:";
     metadata := {| meta_county := PyStr "Alpha"; meta_state := PyStr "CA";
                    is_high_risk := true |};
     chunk_id := 0 |}.

Definition beta_chunk : Chunk :=
  {| text := "Comprehensive Profile for Beta, TX:";
     metadata := {| meta_county := PyStr "Beta"; meta_state := PyStr "TX";
                    is_high_risk := false |};
     chunk_id := 1 |}.

(** A machine that allocates search results up to numpy's own limit. *)
Definition numpy_search_limit : Z := (NPY_MAX_INTP / 8)%Z.

(** A stand-in embedding model: one coordinate, the length of the text. *)
Definition toy_model : Model :=
  {| model_id := "all-MiniLM-L6-v2";
     encode_one := fun s => [inject_Z (Z.of_nat (String.length s))] |}.

Definition alpha_index : Index := {| ix_dim := 1; ix_vectors := [[1]] |}.

(** A service after a full load, without a Groq key. *)
Definition loaded_service : RAGService :=
  set_initialized true (set_chunks [alpha_chunk]
    (set_index (Some alpha_index) (set_model (Some toy_model) new_service))).

(** A service after a load that found neither artifact. *)
Definition degraded_service (c : option Client) : RAGService :=
  set_initialized true (set_client c (set_model (Some toy_model) new_service)).

(** A process where only the embedding model can be loaded, and where the
    remote completion answers [answer]. *)
Definition bare_env (answer : string) : Env :=
  {| env_load_model := fun _ => Some toy_model;
     env_index_file := fun _ => None;
     env_chunks_file := fun _ => None;
     env_groq_key := None;
     env_complete := fun _ => inr answer |}.

(** A process whose artifacts do not pair: one index entry, two chunks. *)
Definition mismatched_env : Env :=
  {| env_load_model := fun _ => Some toy_model;
     env_index_file := fun _ => Some alpha_index;
     env_chunks_file := fun _ => Some [alpha_chunk; beta_chunk];
     env_groq_key := Some "gsk_test";
     env_complete := fun _ => inr "Alpha, CA" |}.

(** A service holding a matching pair: two index entries, two chunks. *)
Definition two_index : Index := {| ix_dim := 1; ix_vectors := [[1]; [2]] |}.

Definition paired_service : RAGService :=
  set_initialized true (set_chunks [alpha_chunk; beta_chunk]
    (set_index (Some two_index) (set_model (Some toy_model) new_service))).

(** A process with a Groq key whose remote completion fails with [msg]. *)
Definition failing_env (msg : string) : Env :=
  {| env_load_model := fun _ => Some toy_model;
     env_index_file := fun _ => Some alpha_index;
     env_chunks_file := fun _ => Some [alpha_chunk];
     env_groq_key := Some "gsk_test";
     env_complete := fun _ => inl msg |}.

(** A process where the embedding model cannot be loaded. *)
Definition offline_env : Env :=
  {| env_load_model := fun _ => None;
     env_index_file := fun _ => Some alpha_index;
     env_chunks_file := fun _ => Some [alpha_chunk];
     env_groq_key := Some "gsk_test";
     env_complete := fun _ => inr "Alpha, CA" |}.

(** A row of the main file, and rows of the risk file for the same county. *)
Definition alpha_row : Row :=
  [("County", PyStr "Alpha"); ("State", PyStr "CA"); ("Population", PyNum "1000")].

Definition alpha_risk_row (risk : string) : Row :=
  [("County", PyStr "Alpha"); ("State", PyStr "CA"); ("composite_risk", PyNum risk)].

(** Stand-ins for the fitted models of [app.py]: estimators are numbers,
    scalers carry nothing; [float()] accepts booleans, NaN and ["8.2"], and
    [int()] accepts ["1"]. *)
Definition toy_float (v : Value) : Exn + PyFloat :=
  match v with
  | PyBool b => inr (FNum (if b then 1 else 0))
  | PyNaN => inr FNaN
  | PyNum r => if String.eqb r "8.2" then inr (FNum (41 # 5))
               else inl (PyExc "ValueError" ("could not convert string to float: " ++ r))
  | _ => inl (PyExc "ValueError" ("could not convert string to float: " ++ py_str v))
  end.

Definition toy_int (v : Value) : Exn + Z :=
  match v with
  | PyNum r => if String.eqb r "1" then inr 1%Z
               else inl (PyExc "ValueError" ("invalid literal for int(): " ++ r))
  | _ => inl (PyExc "ValueError" "cannot convert float NaN to integer")
  end.

Definition toy_preprocess (feats : list (string * Value)) : AppExn + Vec := inr [1].

Definition toy_est_predict (est : nat) (x : Vec) : AppExn + PyFloat :=
  inr (FNum (inject_Z (Z.of_nat est))).

Definition toy_inverse_scale (mt : string) (p : PyFloat) : AppExn + PyFloat := inr p.

Definition toy_confidence (mt : string) (est : nat) (x : Vec) (p v : PyFloat)
  : option string := None.

Definition toy_scale (sc : unit) (xs : list PyFloat) : AppExn + list PyFloat := inr xs.

Definition toy_kmeans (km : nat) (xs : list PyFloat) : AppExn + Z := inr (Z.of_nat km).

(** Startup found the obesity and clustering models, but not the diabetes model. *)
Definition toy_globals : AppGlobals nat unit :=
  {| MODEL_OBESITY := Some 1%nat; MODEL_DIABETES := None; MODEL_KMEANS := Some 3%nat;
     SCALER := Some tt; SCALER_CLUSTERING := Some tt; CLUSTERING_DATA := [] |}.

(** A row of [worst_cluster_counties.csv] with cluster [cluster]. *)
Definition worst_row (county : string) (cluster : Value) : Row :=
  [("County", PyStr county); ("State", PyStr "CA");
   ("composite_risk", PyNum "8.2"); ("Cluster", cluster)].

(** [s] occurs in [t]. *)
Definition sinfix (s t : string) : Prop := exists pre post, t = pre ++ s ++ post.

(** Sources ranked from the most similar down. *)
Definition source_desc (a b : Source) : Prop :=
  py_le (similarity b) (similarity a) = true.

Local Close Scope string_scope.

(* ========================================================================= *)
(** * Properties *)

(* ------------------------------------------------------------------------- *)
(** ** Strings *)

Local Open Scope string_scope.

Lemma sapp_assoc (a b c : string) : (a ++ b) ++ c = a ++ (b ++ c).
Proof. induction a as [|ch a IH]; simpl; [reflexivity | now rewrite IH]. Qed.

Lemma sapp_nil_r (a : string) : a ++ "" = a.
Proof. induction a as [|ch a IH]; simpl; [reflexivity | now rewrite IH]. Qed.

Lemma sapp_cancel_l (a b c : string) : a ++ b = a ++ c -> b = c.
Proof.
  induction a as [|ch a IH]; simpl; intro H; [exact H|].
  injection H as H. exact (IH H).
Qed.

(** [p] is a prefix of [s]. *)
Definition sprefix (p s : string) : Prop := exists r, s = p ++ r.

Lemma sprefix_app (p s t : string) : sprefix p s -> sprefix p (s ++ t).
Proof. intros [r ->]. exists (r ++ t). now rewrite sapp_assoc. Qed.

Lemma sprefix_refl (p : string) : sprefix p p.
Proof. exists "". now rewrite sapp_nil_r. Qed.

Lemma sprefix_mid (p a r : string) : sprefix (p ++ a) (p ++ (a ++ r)).
Proof. exists r. now rewrite sapp_assoc. Qed.

(** Strip trailing appends until the goal is a prefix of itself. *)
Ltac strip_suffixes :=
  repeat first [ apply sprefix_refl | apply sprefix_app ].

Local Close Scope string_scope.

(* ------------------------------------------------------------------------- *)
(** ** The profile builder *)

Local Open Scope string_scope.

Example row_to_text_alpha :
  sprefix (profile_header [("County", PyStr "Alpha"); ("State", PyStr "CA");
                           ("composite_risk", PyNum "8.2"); ("Cluster", PyNum "1");
                           ("Poverty_Rate", PyNum "20")]
           ++ "!!! ALERT: This county is identified as a Highest Composite Health Risk area (Cluster 1)." ++ nl)
    (row_to_text [("County", PyStr "Alpha"); ("State", PyStr "CA");
                  ("composite_risk", PyNum "8.2"); ("Cluster", PyNum "1");
                  ("Poverty_Rate", PyNum "20")]).
Proof. eexists. vm_compute. reflexivity. Qed.

(** C2: the line right after the profile header is the risk-alert line
    ["!!! ALERT: ... Highest Composite Health Risk area (Cluster ...)."]
    if and only if the row's [composite_risk] is not null. *)
Theorem row_to_text_alert_iff_risk (row : Row) :
  (exists rest, row_to_text row = profile_header row ++ alert_line row ++ rest)
  <-> notna (get row "composite_risk" PyNone) = true.
Proof.
  destruct (notna (get row "composite_risk" PyNone)) eqn:Hrisk.
  - split; [reflexivity|intros _].
    assert (Hp : sprefix (profile_header row ++ alert_line row) (row_to_text row)).
    { unfold row_to_text; cbv zeta; rewrite Hrisk.
      destruct (notna (get row "Description" PyNone)),
               (notna (get row "Rule_Description" PyNone));
        strip_suffixes. }
    destruct Hp as [rest Hp]. exists rest. now rewrite Hp, sapp_assoc.
  - split; [|discriminate]. intros [rest Hrest].
    assert (Hp : sprefix (profile_header row ++ "- ") (row_to_text row)).
    { unfold row_to_text; cbv zeta; rewrite Hrisk.
      assert (Hd : forall r, sprefix (profile_header row ++ "- ")
        (profile_header row ++ ("- Demographics: Population: " ++ r)))
        by (intro r; apply (sprefix_mid (profile_header row) "- ")).
      destruct (notna (get row "Description" PyNone)),
               (notna (get row "Rule_Description" PyNone));
        repeat first [ apply Hd | apply sprefix_app ]. }
    destruct Hp as [r Hp]. rewrite Hp, !sapp_assoc in Hrest.
    apply sapp_cancel_l in Hrest. discriminate Hrest.
Qed.

Local Close Scope string_scope.

(* ------------------------------------------------------------------------- *)
(** ** The asset generator *)

Lemma nth_error_combine_seq {A} (rows : list A) (k i : nat) :
  nth_error (combine (seq k (length rows)) rows) i
  = option_map (fun r => ((k + i)%nat, r)) (nth_error rows i).
Proof.
  revert k i. induction rows as [|r rows IH]; intros k i; [now destruct i|].
  destruct i as [|i]; simpl.
  - now rewrite Nat.add_0_r.
  - rewrite IH. destruct (nth_error rows i); simpl; [do 2 f_equal; lia|reflexivity].
Qed.

Lemma combined_frame_labels (main : list Row) (worst : option (list Row)) :
  df_labels (combined_frame main worst)
  = seq 0 (length (df_rows (combined_frame main worst))).
Proof. destruct worst; reflexivity. Qed.

Lemma length_map_combine_seq {A B} (f : nat * A -> B) (rows : list A) :
  length (map f (combine (seq 0 (length rows)) rows)) = length rows.
Proof.
  rewrite length_map, length_combine, length_seq. apply Nat.min_id.
Qed.

(** C1: in the artifacts of a build, the [i]-th chunk has [chunk_id = i], is
    built from the [i]-th row of the joined frame, and the [i]-th vector of
    the index is the normalized embedding of its text; there are as many
    chunks as rows and as many vectors as chunks. *)
Theorem generate_assets_positional
    (normalize_L2 : Vec -> Vec) (m : Model) (main_csv : list Row)
    (worst_csv : option (list Row)) (art : Artifacts)
    (Hgen : generate_assets normalize_L2 m main_csv worst_csv = Some art) :
  let rows := df_rows (combined_frame main_csv worst_csv) in
  length (art_chunks art) = length rows /\
  ntotal (art_index art) = length (art_chunks art) /\
  forall i c, nth_error (art_chunks art) i = Some c ->
    chunk_id c = i /\
    (exists row, nth_error rows i = Some row /\ text c = row_to_text row
                 /\ metadata c = row_metadata row) /\
    nth_error (ix_vectors (art_index art)) i
      = Some (normalize_L2 (encode_one m (text c))).
Proof.
  unfold generate_assets, iterrows in Hgen.
  rewrite combined_frame_labels in Hgen.
  set (df := combined_frame main_csv worst_csv) in *.
  set (rws := df_rows df) in *.
  destruct (map normalize_L2 _) as [|e es] eqn:Hemb; [discriminate|].
  injection Hgen as <-. cbn zeta. rewrite <- Hemb.
  unfold ntotal, encode; simpl.
  rewrite !length_map, length_combine, length_seq, Nat.min_id.
  split; [reflexivity|]. split; [reflexivity|].
  intros i c Hc.
  rewrite nth_error_map, nth_error_combine_seq in Hc.
  rewrite !nth_error_map, nth_error_combine_seq.
  destruct (nth_error rws i) as [row|] eqn:Hrow; simpl in Hc; [|discriminate].
  injection Hc as <-. simpl. repeat split.
  exists row. repeat split; assumption.
Qed.

Local Open Scope string_scope.

Lemma generate_assets_positional_witness :
  let main_csv : list Row :=
    [ [("County", PyStr "Alpha"); ("State", PyStr "CA");
       ("Poverty_Rate", PyNum "20")];
      [("County", PyStr "Beta"); ("State", PyStr "TX");
       ("Poverty_Rate", PyNum "5")] ] in
  let worst_csv : option (list Row) :=
    Some [ [("County", PyStr "Alpha"); ("State", PyStr "CA");
            ("composite_risk", PyNum "8.2")] ] in
  exists art,
    generate_assets (fun v => v) toy_model main_csv worst_csv = Some art /\
    (let rows := df_rows (combined_frame main_csv worst_csv) in
     length (art_chunks art) = length rows /\
     ntotal (art_index art) = length (art_chunks art) /\
     forall i c, nth_error (art_chunks art) i = Some c ->
       chunk_id c = i /\
       (exists row, nth_error rows i = Some row /\ text c = row_to_text row
                    /\ metadata c = row_metadata row) /\
       nth_error (ix_vectors (art_index art)) i
         = Some (encode_one toy_model (text c))).
Proof.
  cbv zeta.
  destruct (generate_assets (fun v => v) toy_model _ _) as [art|] eqn:Hgen.
  - exists art. split; [reflexivity|].
    exact (generate_assets_positional (fun v => v) toy_model _ _ art Hgen).
  - vm_compute in Hgen. discriminate Hgen.
Defined.

Local Close Scope string_scope.

(* ------------------------------------------------------------------------- *)
(** ** Retrieval *)

Create HintDb rag_monad.
#[local] Hint Unfold bind ret gets emit raise modify : rag_monad.

Ltac run_monad := autounfold with rag_monad; simpl.

(** Python's clamp always yields a finite float of [[0, 1]], NaN and the
    infinities included. *)
Lemma clamp_score_bounds (d : PyFloat) :
  exists q, clamp_score d = FNum q /\ 0 <= q /\ q <= 1.
Proof.
  unfold clamp_score, py_min, py_max, py_lt.
  destruct d as [x| | |]; simpl.
  - destruct (Qle_bool 1 x) eqn:H1; simpl.
    + exists 1. split; [reflexivity|]. split; discriminate.
    + apply Bool.not_true_iff_false in H1. rewrite Qle_bool_iff in H1.
      apply Qnot_le_lt in H1.
      destruct (Qle_bool x 0) eqn:H0; simpl.
      * exists 0. split; [reflexivity|]. split; discriminate.
      * apply Bool.not_true_iff_false in H0. rewrite Qle_bool_iff in H0.
        apply Qnot_le_lt in H0.
        exists x. split; [reflexivity|]. split; apply Qlt_le_weak; assumption.
  - exists 1. split; [reflexivity|]. split; discriminate.
  - exists 0. split; [reflexivity|]. split; discriminate.
  - exists 1. split; [reflexivity|]. split; discriminate.
Qed.

Definition in_unit (s : PyFloat) : Prop :=
  py_le (FNum 0) s = true /\ py_le s (FNum 1) = true.

Lemma clamp_score_in_unit (d : PyFloat) : in_unit (clamp_score d).
Proof.
  destruct (clamp_score_bounds d) as [q [-> [H0 H1]]].
  split; simpl; apply Qle_bool_iff; assumption.
Qed.

Lemma collect_scores (cs : list Chunk) (hits : list (Z * PyFloat)) :
  Forall (fun r => in_unit (snd r)) (collect cs hits).
Proof.
  induction hits as [|[idx dist] hits IH]; simpl; [constructor|].
  apply Forall_app. split; [|exact IH].
  destruct (_ && _); [|constructor].
  destruct (nth_error cs _); constructor; [apply clamp_score_in_unit|constructor].
Qed.

Section Retrieval.

Variable normalize_L2 : Vec -> Vec.
Variable max_search_k : Z.

Lemma retrieve_loaded (query : string) (top_k : Z) (st : RAGService)
    (ix : Index) (m : Model) (c : Chunk) (cs : list Chunk) :
  index st = Some ix -> chunks st = c :: cs -> model st = Some m ->
  length (encode_one m query) = ix_dim ix ->
  (0 < top_k)%Z -> (top_k <= max_search_k)%Z ->
  retrieve normalize_L2 max_search_k query top_k st
  = ([Encode [query]; Search top_k], st,
     inr (collect (chunks st)
            (faiss_search ix (normalize_L2 (encode_one m query)) top_k))).
Proof.
  intros Hix Hcs Hm Hd Hk Hcap. unfold retrieve. run_monad.
  rewrite Hix, Hcs. simpl. rewrite Hm. simpl.
  unfold index_search. rewrite Hd, Nat.eqb_refl. simpl.
  replace (top_k <=? 0)%Z with false by (symmetry; apply Z.leb_gt; lia).
  replace (max_search_k <? top_k)%Z with false by (symmetry; apply Z.ltb_ge; lia).
  run_monad. rewrite <- Hcs. reflexivity.
Qed.

(** Where [retrieve] can raise. *)
Lemma retrieve_raises (query : string) (top_k : Z) (st : RAGService) (e : Exn)
    (evs : list Event) (st' : RAGService) :
  retrieve normalize_L2 max_search_k query top_k st = (evs, st', inl e) ->
  st' = st /\
  exists ix, index st = Some ix /\ chunks st <> [] /\
    (model st = None
     \/ exists m, model st = Some m /\
         (length (encode_one m query) <> ix_dim ix \/ (top_k <= 0)%Z
          \/ (max_search_k < top_k)%Z)).
Proof.
  unfold retrieve. run_monad.
  destruct (index st) as [ix|]; destruct (chunks st) as [|c cs] eqn:Hcs;
    simpl; try discriminate.
  destruct (model st) as [m|] eqn:Hm; simpl.
  - unfold index_search.
    destruct (Nat.eqb (length (encode_one m query)) (ix_dim ix)) eqn:Hd; simpl.
    + destruct (top_k <=? 0)%Z eqn:Hk; simpl.
      * intro H; injection H as _ <- _. split; [reflexivity|].
        exists ix. split; [reflexivity|]. split; [discriminate|].
        right. exists m. split; [reflexivity|]. right; left. now apply Z.leb_le.
      * destruct (max_search_k <? top_k)%Z eqn:Hc; simpl; [|discriminate].
        intro H; injection H as _ <- _. split; [reflexivity|].
        exists ix. split; [reflexivity|]. split; [discriminate|].
        right. exists m. split; [reflexivity|]. right; right. now apply Z.ltb_lt.
    + intro H; injection H as _ <- _. split; [reflexivity|].
      exists ix. split; [reflexivity|]. split; [discriminate|].
      right. exists m. split; [reflexivity|]. left. now apply Nat.eqb_neq.
  - intro H; injection H as _ <- _. split; [reflexivity|].
    exists ix. split; [reflexivity|]. split; [discriminate|]. now left.
Qed.

End Retrieval.

(** Step through the three checks of [index_search], closing the goals of
    the branches that raise. *)
Ltac search_cases :=
  unfold index_search;
  destruct (Nat.eqb _ _); simpl; [|exact I];
  destruct (_ <=? 0)%Z; simpl; [exact I|];
  destruct (_ <? _)%Z; simpl; [exact I|];
  run_monad.

(** C4: every similarity score [retrieve] returns satisfies
    [0.0 <= s <= 1.0]. *)
Theorem retrieve_scores_in_unit_interval (normalize_L2 : Vec -> Vec) (max_search_k : Z)
    (query : string) (top_k : Z) (st : RAGService) :
  match retrieve normalize_L2 max_search_k query top_k st with
  | (_, _, inr results) =>
      Forall (fun r => py_le (FNum 0) (snd r) = true
                       /\ py_le (snd r) (FNum 1) = true) results
  | (_, _, inl _) => True
  end.
Proof.
  unfold retrieve. run_monad.
  destruct (index st) as [ix|]; destruct (chunks st) as [|c cs] eqn:Hcs;
    simpl; try constructor.
  destruct (model st) as [m|]; simpl; [|exact I].
  search_cases.
  apply collect_scores.
Qed.

(** C5: with no index or no chunks loaded, [retrieve] returns [[]] at once:
    no effect, no exception, the service unchanged. *)
Theorem retrieve_unloaded_empty (normalize_L2 : Vec -> Vec) (max_search_k : Z)
    (query : string) (top_k : Z) (st : RAGService)
    (Hunloaded : index st = None \/ chunks st = []) :
  retrieve normalize_L2 max_search_k query top_k st = ([], st, inr []).
Proof.
  unfold retrieve. run_monad.
  destruct Hunloaded as [-> | ->]; [reflexivity|].
  destruct (index st); reflexivity.
Qed.

Lemma retrieve_unloaded_empty_witness :
  (index new_service = None \/ chunks new_service = []) /\
  retrieve (fun v => v) numpy_search_limit "which county has the highest obesity rate" 5
    new_service = ([], new_service, inr []).
Proof.
  split; [left; reflexivity|].
  apply (retrieve_unloaded_empty (fun v => v)). left; reflexivity.
Defined.


Lemma insert_ranked_perm (x : Z * PyFloat) (l : list (Z * PyFloat)) :
  Permutation (insert_ranked x l) (x :: l).
Proof.
  induction l as [|y l IH]; simpl; [reflexivity|].
  destruct (py_lt (snd x) (snd y)); [|reflexivity].
  rewrite IH. apply perm_swap.
Qed.

Lemma rank_perm (l : list (Z * PyFloat)) : Permutation (rank l) l.
Proof.
  induction l as [|x l IH]; simpl; [reflexivity|].
  rewrite insert_ranked_perm. now apply perm_skip.
Qed.

Definition label_in_range (n : nat) (h : Z * PyFloat) : Prop :=
  (0 <= fst h < Z.of_nat n)%Z.

Lemma collect_app (cs : list Chunk) (a b : list (Z * PyFloat)) :
  collect cs (a ++ b) = collect cs a ++ collect cs b.
Proof. unfold collect. apply flat_map_app. Qed.

Lemma collect_padding (cs : list Chunk) (d : PyFloat) (n : nat) :
  collect cs (repeat ((-1)%Z, d) n) = [].
Proof. induction n as [|n IH]; simpl; [reflexivity|exact IH]. Qed.

Lemma length_collect_in_range (cs : list Chunk) (l : list (Z * PyFloat)) :
  Forall (label_in_range (length cs)) l -> length (collect cs l) = length l.
Proof.
  induction 1 as [|[idx dist] l [H0 H1] _ IH]; simpl in *; [reflexivity|].
  replace ((0 <=? idx)%Z && (idx <? Z.of_nat (length cs))%Z) with true
    by (symmetry; apply andb_true_iff; split; [apply Z.leb_le|apply Z.ltb_lt]; lia).
  destruct (nth_error cs (Z.to_nat idx)) eqn:Hn.
  - simpl. now rewrite IH.
  - apply nth_error_None in Hn. lia.
Qed.

Lemma scored_in_range (n : nat) (scores : list PyFloat) :
  Forall (label_in_range n) (combine (map Z.of_nat (seq 0 n)) scores).
Proof.
  apply Forall_forall. intros [idx s] Hin.
  apply in_combine_l, in_map_iff in Hin as [j [<- Hj]].
  apply in_seq in Hj. unfold label_in_range. simpl. lia.
Qed.

Lemma Forall_perm {A} (P : A -> Prop) (l l' : list A) :
  Permutation l l' -> Forall P l' -> Forall P l.
Proof.
  intros Hp H. apply Forall_forall. intros x Hx.
  rewrite Forall_forall in H. apply H. eapply Permutation_in; eassumption.
Qed.

Lemma collect_cons (cs : list Chunk) (h : Z * PyFloat) (hits : list (Z * PyFloat)) :
  collect cs (h :: hits) = collect cs [h] ++ collect cs hits.
Proof. rewrite <- collect_app. reflexivity. Qed.

Lemma collect_all_labels (pre suf : list Chunk) (scores : list PyFloat) :
  length scores = length suf ->
  map fst (collect (pre ++ suf)
             (combine (map Z.of_nat (seq (length pre) (length suf))) scores))
  = suf.
Proof.
  revert pre scores. induction suf as [|c suf IH]; intros pre scores Hlen;
    [reflexivity|].
  destruct scores as [|d ds]; [discriminate|]. injection Hlen as Hlen.
  cbn [length seq map combine].
  rewrite (collect_cons (pre ++ c :: suf)).
  rewrite map_app.
  replace (collect (pre ++ c :: suf) [(Z.of_nat (length pre), d)])
    with [(c, clamp_score d)].
  - replace (pre ++ c :: suf) with ((pre ++ [c]) ++ suf)
      by (now rewrite <- app_assoc).
    replace (S (length pre)) with (length (pre ++ [c]))
      by (rewrite length_app; simpl; lia).
    simpl. f_equal. apply IH. exact Hlen.
  - unfold collect. simpl.
    replace ((0 <=? Z.of_nat (length pre))%Z
             && (Z.of_nat (length pre) <? Z.of_nat (length (pre ++ c :: suf)))%Z)
      with true.
    + rewrite Nat2Z.id, nth_error_app2, Nat.sub_diag by lia. reflexivity.
    + symmetry. apply andb_true_iff. split; [apply Z.leb_le; lia|].
      apply Z.ltb_lt. rewrite length_app. simpl. lia.
Qed.

(** C6 (as the code does it): when [top_k] exceeds the number of chunks, the
    index holds one entry per chunk, its dimension is the width of the
    model's embeddings, and [top_k] is small enough for [index.search] to
    allocate its [(1, top_k)] result arrays, [retrieve] returns every chunk
    exactly once (so [len(chunks)] results) and no padding entry. *)
Theorem retrieve_k_overflow (normalize_L2 : Vec -> Vec) (max_search_k : Z)
    (query : string) (top_k : Z) (st : RAGService) (ix : Index) (m : Model)
    (Hix : index st = Some ix) (Hm : model st = Some m)
    (Hpair : ntotal ix = length (chunks st))
    (Hdim : length (encode_one m query) = ix_dim ix)
    (Hk : (Z.of_nat (length (chunks st)) < top_k)%Z)
    (Hcap : (top_k <= max_search_k)%Z) :
  exists evs results,
    retrieve normalize_L2 max_search_k query top_k st = (evs, st, inr results)
    /\ Permutation (map fst results) (chunks st)
    /\ length results = length (chunks st).
Proof.
  destruct (chunks st) as [|c cs] eqn:Hcs.
  - exists [], []. split; [|split; reflexivity].
    apply retrieve_unloaded_empty. now right.
  - rewrite (retrieve_loaded normalize_L2 max_search_k query top_k st ix m c cs
               Hix Hcs Hm Hdim) by lia.
    eexists _, _. split; [reflexivity|].
    rewrite Hcs. unfold faiss_search.
    set (scored := combine _ _).
    assert (Hlen : length (rank scored) = length (c :: cs)).
    { rewrite (Permutation_length (rank_perm scored)). unfold scored.
      rewrite length_combine, !length_map, length_seq.
      unfold ntotal in *. rewrite Hpair. apply Nat.min_id. }
    rewrite firstn_all2 by lia.
    rewrite collect_app, collect_padding, app_nil_r.
    assert (Hperm : Permutation (map fst (collect (c :: cs) (rank scored))) (c :: cs)).
    { apply (Permutation_trans (l' := map fst (collect (c :: cs) scored))).
      - apply Permutation_map. unfold collect.
        apply Permutation_flat_map. apply rank_perm.
      - unfold scored, ntotal in *. rewrite Hpair.
        erewrite (collect_all_labels [] (c :: cs)); [reflexivity|].
        rewrite length_map. unfold ntotal in Hpair. exact Hpair. }
    split; [exact Hperm|].
    rewrite <- (length_map fst). exact (Permutation_length Hperm).
Qed.

Lemma retrieve_k_overflow_witness :
  exists evs results,
    retrieve (fun v => v) numpy_search_limit "which county has the highest obesity rate" 5
      loaded_service = (evs, loaded_service, inr results)
    /\ Permutation (map fst results) (chunks loaded_service)
    /\ length results = length (chunks loaded_service).
Proof.
  apply (retrieve_k_overflow (fun v => v) numpy_search_limit _ 5 loaded_service
           alpha_index toy_model); try reflexivity.
  vm_compute. discriminate.
Defined.

(** C6 fails for a [top_k] too large for the result arrays: even on a
    machine that allocates up to numpy's limit, [retrieve(q, 2**62)] on a
    one-chunk service raises the [ValueError] of [np.empty]. *)
Lemma retrieve_k_overflow_too_large :
  retrieve (fun v => v) numpy_search_limit "obesity" (2 ^ 62)%Z loaded_service
  = ([Encode ["obesity"%string]], loaded_service,
     inl (PyExc "ValueError" "np.empty((n, k))")).
Proof. vm_compute. reflexivity. Qed.

(* ------------------------------------------------------------------------- *)
(** ** Initialization *)

Lemma initialize_done (env : Env) (st : RAGService) :
  initialized st = true -> initialize env st = ([], st, inr tt).
Proof. intro H. unfold initialize. run_monad. now rewrite H. Qed.

(** Every completed call leaves [initialized] set. *)
Lemma initialize_sets_flag (env : Env) (st st' : RAGService)
    (evs : list Event) (u : unit) :
  initialize env st = (evs, st', inr u) -> initialized st' = true.
Proof.
  unfold initialize. run_monad.
  destruct (initialized st) eqn:Hdone; [intro H; injection H as _ <-; exact Hdone|].
  simpl. destruct (env_load_model env (model_name st)) as [m|]; simpl;
    [|discriminate].
  destruct (env_index_file env (index_path st)); simpl;
  destruct (env_chunks_file env (chunks_path st)); simpl;
  destruct (truthy_str (env_groq_key env)); simpl;
  intro H; injection H as _ <-; reflexivity.
Qed.

(** [retrieve] and [ask] on an initialized service never write to it. *)
Lemma retrieve_keeps_state (normalize_L2 : Vec -> Vec) (max_search_k : Z) (query : string)
    (top_k : Z) (st : RAGService) :
  snd (fst (retrieve normalize_L2 max_search_k query top_k st)) = st.
Proof.
  unfold retrieve. run_monad.
  destruct (index st); destruct (chunks st); simpl; try reflexivity.
  destruct (model st); simpl; [|reflexivity].
  unfold index_search.
  destruct (Nat.eqb _ _); simpl; [|reflexivity].
  destruct (top_k <=? 0)%Z; simpl; [reflexivity|].
  destruct (_ <? _)%Z; reflexivity.
Qed.

Lemma ask_keeps_state (normalize_L2 : Vec -> Vec) (max_search_k : Z) (env : Env) (query : string)
    (st : RAGService) :
  initialized st = true -> snd (fst (ask normalize_L2 max_search_k env query st)) = st.
Proof.
  intro Hdone. unfold ask. run_monad. rewrite Hdone. simpl.
  destruct (client st); simpl; [|reflexivity].
  pose proof (retrieve_keeps_state normalize_L2 max_search_k query 10 st) as Hr.
  destruct (retrieve normalize_L2 max_search_k query 10 st) as [[ev s'] [e|r]]; simpl in *;
    subst s'; [reflexivity|].
  destruct (env_complete env _); reflexivity.
Qed.

Lemma app_ask_keeps_state (normalize_L2 : Vec -> Vec) (max_search_k : Z) (env : Env)
    (query : string) (st : RAGService) :
  initialized st = true -> snd (fst (app_ask normalize_L2 max_search_k env query st)) = st.
Proof.
  intro Hdone. pose proof (ask_keeps_state normalize_L2 max_search_k env query st Hdone) as Ha.
  unfold app_ask. run_monad. rewrite Hdone. simpl.
  destruct (ask normalize_L2 max_search_k env query st) as [[ev s'] [e|r]]; simpl in *;
    subst s'; [reflexivity|].
  destruct r; reflexivity.
Qed.

Lemma app_ask_done (normalize_L2 : Vec -> Vec) (max_search_k : Z) (env : Env) (query : string)
    (st : RAGService) :
  initialized st = true ->
  app_ask normalize_L2 max_search_k env query st
  = let '(ev, s, r) := ask normalize_L2 max_search_k env query st in
    (ev, s, match r with
            | inl e => inl e
            | inr (AskError e) => inr (HTTPException 500 e)
            | inr (AskAnswer a srcs _) => inr (AskResponse a srcs)
            end).
Proof.
  intro Hdone. cbv beta iota delta [app_ask bind ret gets]. rewrite Hdone.
  cbv beta iota.
  destruct (ask normalize_L2 max_search_k env query st) as [[ev s] [e|[e|a srcs ctx]]];
    simpl; rewrite ?app_nil_r; reflexivity.
Qed.

(** C9: once a call to [initialize] has completed, calling it again (in any
    environment) is a no-op: no effect and the service unchanged. *)
Theorem initialize_idempotent (env env' : Env) (st : RAGService) :
  match initialize env st with
  | (_, st', inr _) => initialize env' st' = ([], st', inr tt)
  | (_, _, inl _) => True
  end.
Proof.
  destruct (initialize env st) as [[evs st'] [e|u]] eqn:H; [exact I|].
  apply initialize_done. exact (initialize_sets_flag env st st' evs u H).
Qed.

(** C10: after one call to [initialize] returns, whatever was missing,
    [initialized] is set; every later [initialize] returns at once, and
    the [/ask] handler (with its re-initialization attempt) leaves the model,
    index, chunks and client as they are, in any later environment. *)
Theorem initialize_once_final (normalize_L2 : Vec -> Vec) (max_search_k : Z) (env : Env)
    (st st' : RAGService) (evs : list Event) (u : unit)
    (Hinit : initialize env st = (evs, st', inr u)) :
  initialized st' = true /\
  (forall env', initialize env' st' = ([], st', inr tt)) /\
  (forall env' query,
     let st'' := snd (fst (app_ask normalize_L2 max_search_k env' query st')) in
     model st'' = model st' /\ index st'' = index st' /\
     chunks st'' = chunks st' /\ client st'' = client st').
Proof.
  pose proof (initialize_sets_flag env st st' evs u Hinit) as Hdone.
  split; [exact Hdone|]. split.
  - intro env'. now apply initialize_done.
  - intros env' query. cbv zeta.
    rewrite (app_ask_keeps_state normalize_L2 max_search_k env' query st' Hdone).
    repeat split.
Qed.

Local Open Scope string_scope.

Lemma initialize_once_final_witness :
  initialize (bare_env "Alpha, CA") new_service
    = ([Print "Loading embedding model: all-MiniLM-L6-v2...";
        Print "Warning: faiss_index.bin not found. RAG will not work.";
        Print "Warning: chunks.pkl not found.";
        Print "Warning: GROQ_API_KEY not found in environment."],
       degraded_service None, inr tt)
  /\ initialized (degraded_service None) = true
  /\ (forall env', initialize env' (degraded_service None)
                   = ([], degraded_service None, inr tt))
  /\ (forall env' query,
       let st'' := snd (fst (app_ask (fun v => v) numpy_search_limit env' query (degraded_service None))) in
       model st'' = model (degraded_service None)
       /\ index st'' = index (degraded_service None)
       /\ chunks st'' = chunks (degraded_service None)
       /\ client st'' = client (degraded_service None)).
Proof.
  split; [reflexivity|].
  apply (initialize_once_final (fun v => v) numpy_search_limit (bare_env "Alpha, CA") new_service
           (degraded_service None)
           [Print "Loading embedding model: all-MiniLM-L6-v2...";
            Print "Warning: faiss_index.bin not found. RAG will not work.";
            Print "Warning: chunks.pkl not found.";
            Print "Warning: GROQ_API_KEY not found in environment."] tt).
  reflexivity.
Defined.

Local Close Scope string_scope.

Local Open Scope string_scope.

(** C7 (as the code does it): [initialize] loads whatever index and chunk
    list it finds without comparing [len(chunks)] with [index.ntotal]; its
    log is the same fixed loading messages for every pair, matching or not. *)
Theorem initialize_loads_pair_unchecked (env : Env) (st : RAGService)
    (m : Model) (ix : Index) (cs : list Chunk)
    (Hfresh : initialized st = false)
    (Hm : env_load_model env (model_name st) = Some m)
    (Hix : env_index_file env (index_path st) = Some ix)
    (Hcs : env_chunks_file env (chunks_path st) = Some cs) :
  exists st',
    initialize env st
    = (app [Print ("Loading embedding model: " ++ model_name st ++ "...");
            Print ("Loading FAISS index from " ++ index_path st ++ "...");
            Print ("Loading chunks from " ++ chunks_path st ++ "...")]
       (match truthy_str (env_groq_key env) with
          | Some _ => []
          | None => [Print "Warning: GROQ_API_KEY not found in environment."]
          end), st', inr tt)
    /\ index st' = Some ix /\ chunks st' = cs /\ initialized st' = true.
Proof.
  unfold initialize. run_monad. rewrite Hfresh. simpl.
  rewrite Hm. simpl. rewrite Hix. simpl. rewrite Hcs. simpl.
  destruct (truthy_str (env_groq_key env)); simpl; eexists; repeat split.
Qed.

Lemma initialize_loads_pair_unchecked_witness :
  exists st',
    initialize mismatched_env new_service
    = (app [Print ("Loading embedding model: " ++ model_name new_service ++ "...");
            Print ("Loading FAISS index from " ++ index_path new_service ++ "...");
            Print ("Loading chunks from " ++ chunks_path new_service ++ "...")]
       (match truthy_str (env_groq_key mismatched_env) with
          | Some _ => []
          | None => [Print "Warning: GROQ_API_KEY not found in environment."]
          end), st', inr tt)
    /\ index st' = Some alpha_index /\ chunks st' = [alpha_chunk; beta_chunk]
    /\ initialized st' = true.
Proof.
  apply (initialize_loads_pair_unchecked mismatched_env new_service toy_model);
    reflexivity.
Defined.

(** C7 refuted: an index with one entry and a chunk list of two are loaded
    together, and nothing but the usual loading messages is logged. *)
Lemma initialize_mismatch_not_detected :
  let r := initialize mismatched_env new_service in
  fst (fst r) = [Print "Loading embedding model: all-MiniLM-L6-v2...";
                 Print "Loading FAISS index from faiss_index.bin...";
                 Print "Loading chunks from chunks.pkl..."]
  /\ index (snd (fst r)) = Some alpha_index
  /\ chunks (snd (fst r)) = [alpha_chunk; beta_chunk]
  /\ ntotal alpha_index <> length [alpha_chunk; beta_chunk]
  /\ initialized (snd (fst r)) = true
  /\ snd r = inr tt.
Proof. vm_compute. repeat split; discriminate. Qed.

(** C3 (as the code does it): in a state where retrieval is unavailable,
    [ask] does not check it.  Without a Groq client it returns the error
    dictionary, which the [/ask] handler turns into an [HTTPException] 500;
    with one it sends the prompt with an empty context and returns the
    completion as the answer with no sources (or the call's error). *)
Theorem ask_retrieval_unavailable (normalize_L2 : Vec -> Vec) (max_search_k : Z) (env : Env)
    (query : string) (st : RAGService)
    (Hdone : initialized st = true)
    (Hdeg : index st = None \/ chunks st = []) :
  let prompt := build_prompt "" query in
  ask normalize_L2 max_search_k env query st
  = match client st with
    | None => ([], st, inr (AskError groq_missing))
    | Some _ =>
        ([Complete prompt], st,
         inr (match env_complete env prompt with
              | inl msg => AskError msg
              | inr a => AskAnswer a [] ""
              end))
    end
  /\ app_ask normalize_L2 max_search_k env query st
  = match client st with
    | None => ([], st, inr (HTTPException 500 groq_missing))
    | Some _ =>
        ([Complete prompt], st,
         inr (match env_complete env prompt with
              | inl msg => HTTPException 500 msg
              | inr a => AskResponse a []
              end))
    end.
Proof.
  cbv zeta.
  assert (Hask : ask normalize_L2 max_search_k env query st
    = match client st with
      | None => ([], st, inr (AskError groq_missing))
      | Some _ =>
          ([Complete (build_prompt "" query)], st,
           inr (match env_complete env (build_prompt "" query) with
                | inl msg => AskError msg
                | inr a => AskAnswer a [] ""
                end))
      end).
  { unfold ask. run_monad. rewrite Hdone. simpl.
    destruct (client st); simpl; [|reflexivity].
    rewrite (retrieve_unloaded_empty normalize_L2 max_search_k query 10 st Hdeg). simpl.
    destruct (env_complete env (build_prompt "" query)); reflexivity. }
  split; [exact Hask|].
  rewrite (app_ask_done normalize_L2 max_search_k env query st Hdone), Hask.
  destruct (client st); [|reflexivity].
  destruct (env_complete env (build_prompt "" query)); reflexivity.
Qed.

Lemma ask_retrieval_unavailable_witness :
  ask (fun v => v) numpy_search_limit (bare_env "Alpha, CA") "anything" (degraded_service None)
  = ([], degraded_service None, inr (AskError groq_missing))
  /\ app_ask (fun v => v) numpy_search_limit (bare_env "Alpha, CA") "anything" (degraded_service None)
  = ([], degraded_service None, inr (HTTPException 500 groq_missing)).
Proof.
  apply (ask_retrieval_unavailable (fun v => v) numpy_search_limit (bare_env "Alpha, CA")
           "anything" (degraded_service None)); [reflexivity|now left].
Defined.

(** C3 refuted: without a client the handler raises an [HTTPException] 500
    and [ask] returns no [sources] at all; with a client the answer is
    whatever the completion says, so it is not a fixed message. *)
Lemma ask_degraded_no_fixed_message :
  app_ask (fun v => v) numpy_search_limit (bare_env "x") "anything" (degraded_service None)
    = ([], degraded_service None, inr (HTTPException 500 groq_missing))
  /\ snd (ask (fun v => v) numpy_search_limit (bare_env "Alpha, CA") "anything"
            (degraded_service (Some {| api_key := "gsk_test" |})))
     = inr (AskAnswer "Alpha, CA" [] "")
  /\ snd (ask (fun v => v) numpy_search_limit (bare_env "Beta, TX") "anything"
            (degraded_service (Some {| api_key := "gsk_test" |})))
     = inr (AskAnswer "Beta, TX" [] "").
Proof. vm_compute. repeat split. Qed.

(** C8 (as the code does it): the empty query is not rejected; on a loaded
    service with a client, whose index has the width of the model's
    embeddings and whose machine allocates ten search results, the first
    thing [ask ""] does is embed [""], and it goes on to an answer or the
    error dictionary of the completion call. *)
Theorem ask_empty_query_embedded (normalize_L2 : Vec -> Vec) (max_search_k : Z) (env : Env)
    (st : RAGService) (cl : Client) (ix : Index) (m : Model) (c : Chunk)
    (cs : list Chunk)
    (Hdone : initialized st = true) (Hcl : client st = Some cl)
    (Hix : index st = Some ix) (Hcs : chunks st = c :: cs)
    (Hm : model st = Some m)
    (Hdim : length (encode_one m "") = ix_dim ix)
    (Hcap : (10 <= max_search_k)%Z) :
  exists rest result,
    ask normalize_L2 max_search_k env "" st = (Encode [""] :: rest, st, inr result).
Proof.
  unfold ask. run_monad. rewrite Hdone. simpl. rewrite Hcl. simpl.
  rewrite (retrieve_loaded normalize_L2 max_search_k "" 10 st ix m c cs
             Hix Hcs Hm Hdim) by lia.
  simpl. destruct (env_complete env _); simpl; eexists _, _; reflexivity.
Qed.

Lemma ask_empty_query_embedded_witness :
  exists rest result,
    ask (fun v => v) numpy_search_limit mismatched_env ""
      (set_client (Some {| api_key := "gsk_test" |}) loaded_service)
    = (Encode [""] :: rest,
       set_client (Some {| api_key := "gsk_test" |}) loaded_service, inr result).
Proof.
  apply (ask_empty_query_embedded (fun v => v) numpy_search_limit mismatched_env
           (set_client (Some {| api_key := "gsk_test" |}) loaded_service)
           {| api_key := "gsk_test" |} alpha_index toy_model alpha_chunk []);
    try reflexivity.
  vm_compute. discriminate.
Defined.

(** C8 refuted: [ask ""] embeds the empty string and answers it. *)
Lemma ask_empty_query_not_rejected :
  let r := ask (fun v => v) numpy_search_limit mismatched_env ""
             (set_client (Some {| api_key := "gsk_test" |}) loaded_service) in
  hd_error (fst (fst r)) = Some (Encode [""])
  /\ match snd r with inr (AskAnswer _ _ _) => True | _ => False end.
Proof. vm_compute. split; [reflexivity|exact I]. Qed.

Local Close Scope string_scope.

(* ========================================================================= *)
(** * Further properties of the serving code *)

From Stdlib Require Import Sorted Lqa.

(* ------------------------------------------------------------------------- *)
(** ** Ranking and the shape of [retrieve]'s results *)

Lemma py_le_trans (a b c : PyFloat) :
  py_le a b = true -> py_le b c = true -> py_le a c = true.
Proof.
  destruct a, b, c; simpl; intros H1 H2; try discriminate; try reflexivity.
  rewrite Qle_bool_iff in *. eapply Qle_trans; eassumption.
Qed.

Lemma clamp_score_num (x : Q) :
  clamp_score (FNum x)
  = FNum (if Qle_bool 1 x then 1 else if Qle_bool x 0 then 0 else x).
Proof.
  unfold clamp_score, py_min, py_max, py_lt.
  destruct (Qle_bool 1 x); simpl; [reflexivity|].
  destruct (Qle_bool x 0); reflexivity.
Qed.

(** The clamp never reorders two scores. *)
Lemma clamp_score_monotone (a b : PyFloat) :
  py_le a b = true -> py_le (clamp_score a) (clamp_score b) = true.
Proof.
  intro Hab.
  destruct (clamp_score_bounds a) as [qa [Ha [Ha0 Ha1]]].
  destruct (clamp_score_bounds b) as [qb [Hb [Hb0 Hb1]]].
  rewrite Ha, Hb. simpl. apply Qle_bool_iff.
  destruct a as [x| | |], b as [y| | |]; simpl in Hab; try discriminate.
  - rewrite clamp_score_num in Ha, Hb. injection Ha as <-. injection Hb as <-.
    apply Qle_bool_iff in Hab.
    destruct (Qle_bool 1 x) eqn:E1, (Qle_bool x 0) eqn:E2,
             (Qle_bool 1 y) eqn:E3, (Qle_bool y 0) eqn:E4;
      rewrite ?Qle_bool_iff in *;
      repeat match goal with
             | H : Qle_bool _ _ = false |- _ =>
                 apply Bool.not_true_iff_false in H; rewrite Qle_bool_iff in H
             end; lra.
  - unfold clamp_score, py_min, py_max, py_lt in Ha, Hb; simpl in Ha, Hb;
      repeat match goal with
             | H : FNum _ = FNum _ |- _ => injection H as <-
             end; lra.
  - unfold clamp_score, py_min, py_max, py_lt in Ha, Hb; simpl in Ha, Hb;
      repeat match goal with
             | H : FNum _ = FNum _ |- _ => injection H as <-
             end; lra.
  - unfold clamp_score, py_min, py_max, py_lt in Ha, Hb; simpl in Ha, Hb;
      repeat match goal with
             | H : FNum _ = FNum _ |- _ => injection H as <-
             end; lra.
  - unfold clamp_score, py_min, py_max, py_lt in Ha, Hb; simpl in Ha, Hb;
      repeat match goal with
             | H : FNum _ = FNum _ |- _ => injection H as <-
             end; lra.
  - unfold clamp_score, py_min, py_max, py_lt in Ha, Hb; simpl in Ha, Hb;
      repeat match goal with
             | H : FNum _ = FNum _ |- _ => injection H as <-
             end; lra.
Qed.

(** Hits ranked from the highest score down. *)
Definition hit_desc (a b : Z * PyFloat) : Prop := py_le (snd b) (snd a) = true.

(** Results ranked from the highest similarity down. *)
Definition result_desc (a b : Chunk * PyFloat) : Prop :=
  py_le (snd b) (snd a) = true.

Definition finite_hit (h : Z * PyFloat) : Prop :=
  match snd h with FNum _ => True | _ => False end.

Lemma insert_ranked_sorted (x : Z * PyFloat) (l : list (Z * PyFloat)) :
  finite_hit x -> Forall finite_hit l -> StronglySorted hit_desc l ->
  StronglySorted hit_desc (insert_ranked x l).
Proof.
  intros Hx. induction l as [|y l IH]; intros Hl Hs; simpl.
  - repeat constructor.
  - inversion Hl as [|? ? Hy Hl']; subst. inversion Hs as [|? ? Hs' Hys]; subst.
    destruct x as [ix vx], y as [iy vy]; unfold finite_hit in Hx, Hy; simpl in *.
    destruct vx as [qx| | |]; try contradiction.
    destruct vy as [qy| | |]; try contradiction.
    destruct (py_lt (FNum qx) (FNum qy)) eqn:Hlt; simpl in Hlt.
    + constructor; [apply IH; assumption|].
      apply (Forall_perm _ _ _ (insert_ranked_perm _ _)).
      constructor; [|exact Hys].
      unfold hit_desc; simpl. apply Qle_bool_iff.
      apply Bool.negb_true_iff, Bool.not_true_iff_false in Hlt.
      rewrite Qle_bool_iff in Hlt. apply Qlt_le_weak, Qnot_le_lt, Hlt.
    + apply Bool.negb_false_iff in Hlt.
      constructor; [constructor; assumption|].
      constructor; [exact Hlt|].
      eapply Forall_impl; [|exact Hys].
      intros z Hz. unfold hit_desc in *. simpl in *.
      exact (py_le_trans _ (FNum qy) (FNum qx) Hz Hlt).
Qed.

Lemma rank_sorted (l : list (Z * PyFloat)) :
  Forall finite_hit l -> StronglySorted hit_desc (rank l).
Proof.
  induction l as [|x l IH]; intro Hl; simpl; [constructor|].
  inversion Hl; subst. apply insert_ranked_sorted; auto.
  apply (Forall_perm _ _ _ (rank_perm l)). assumption.
Qed.

Lemma StronglySorted_firstn {A} (R : A -> A -> Prop) (n : nat) (l : list A) :
  StronglySorted R l -> StronglySorted R (firstn n l).
Proof.
  revert l. induction n as [|n IH]; intros [|x l] Hs; simpl; try constructor.
  - inversion Hs; subst. apply IH; assumption.
  - inversion Hs; subst.
    apply Forall_forall. intros y Hy. rewrite Forall_forall in *.
    apply H2. rewrite <- (firstn_skipn n l). apply in_or_app. left. exact Hy.
Qed.

Lemma StronglySorted_app {A} (R : A -> A -> Prop) (l1 l2 : list A) :
  StronglySorted R l1 -> StronglySorted R l2 ->
  (forall a b, In a l1 -> In b l2 -> R a b) -> StronglySorted R (l1 ++ l2).
Proof.
  induction l1 as [|x l1 IH]; intros H1 H2 H12; simpl; [exact H2|].
  inversion H1; subst. constructor.
  - apply IH; auto. intros a b Ha Hb. apply H12; simpl; auto.
  - apply Forall_app. split; [assumption|].
    apply Forall_forall. intros b Hb. apply H12; simpl; auto.
Qed.

Lemma StronglySorted_repeat {A} (R : A -> A -> Prop) (x : A) (n : nat) :
  R x x -> StronglySorted R (repeat x n).
Proof.
  intro Hx. induction n as [|n IH]; simpl; constructor; [exact IH|].
  apply Forall_forall. intros y Hy. apply repeat_spec in Hy. now subst.
Qed.

Lemma faiss_search_sorted (ix : Index) (qv : Vec) (k : Z) :
  StronglySorted hit_desc (faiss_search ix qv k).
Proof.
  unfold faiss_search.
  set (scored := combine _ _).
  assert (Hfin : Forall finite_hit scored).
  { apply Forall_forall. intros [i s] Hin. apply in_combine_r, in_map_iff in Hin.
    destruct Hin as [v [<- _]]. exact I. }
  assert (Htop : Forall finite_hit (firstn (Z.to_nat k) (rank scored))).
  { apply Forall_forall. intros h Hh. rewrite Forall_forall in Hfin.
    apply Hfin. apply (Permutation_in _ (rank_perm scored)).
    rewrite <- (firstn_skipn (Z.to_nat k) (rank scored)). apply in_or_app. now left. }
  apply StronglySorted_app.
  - apply StronglySorted_firstn, rank_sorted, Hfin.
  - apply StronglySorted_repeat. reflexivity.
  - intros a b Ha Hb. apply repeat_spec in Hb. subst b.
    rewrite Forall_forall in Htop. specialize (Htop a Ha).
    unfold finite_hit in Htop. unfold hit_desc. simpl.
    destruct (snd a); [reflexivity|contradiction..].
Qed.

Lemma length_faiss_search (ix : Index) (qv : Vec) (k : Z) :
  length (faiss_search ix qv k) = Z.to_nat k.
Proof.
  unfold faiss_search. rewrite length_app, repeat_length, length_firstn. lia.
Qed.

Lemma In_collect (cs : list Chunk) (hits : list (Z * PyFloat)) (r : Chunk * PyFloat) :
  In r (collect cs hits) -> exists h, In h hits /\ snd r = clamp_score (snd h).
Proof.
  induction hits as [|[idx dist] hits IH]; simpl; [contradiction|].
  intro Hin. apply in_app_or in Hin as [Hin|Hin].
  - destruct (_ && _); [|contradiction].
    destruct (nth_error cs _); [|contradiction].
    destruct Hin as [<-|[]]. exists (idx, dist). simpl. auto.
  - destruct (IH Hin) as [h [Hh Hs]]. exists h. auto.
Qed.

Lemma collect_sorted (cs : list Chunk) (hits : list (Z * PyFloat)) :
  StronglySorted hit_desc hits -> StronglySorted result_desc (collect cs hits).
Proof.
  induction 1 as [|[idx dist] hits Hs IH Hall]; simpl; [constructor|].
  destruct (_ && _); simpl; [|exact IH].
  destruct (nth_error cs _); simpl; [|exact IH].
  constructor; [exact IH|].
  apply Forall_forall. intros r Hr. unfold result_desc. simpl.
  destruct (In_collect cs hits r Hr) as [h [Hh ->]].
  rewrite Forall_forall in Hall. apply clamp_score_monotone, (Hall h Hh).
Qed.

Lemma length_collect_le (cs : list Chunk) (hits : list (Z * PyFloat)) :
  (length (collect cs hits) <= length hits)%nat.
Proof.
  induction hits as [|[idx dist] hits IH]; simpl; [lia|].
  rewrite length_app.
  destruct (_ && _); [destruct (nth_error cs _)|]; simpl; lia.
Qed.

(** [retrieve(query, top_k)] never returns more than [top_k] results, whatever
    the index and chunk list hold. *)
Theorem retrieve_at_most_top_k (normalize_L2 : Vec -> Vec) (max_search_k : Z)
    (query : string) (top_k : Z) (st : RAGService) :
  match retrieve normalize_L2 max_search_k query top_k st with
  | (_, _, inr results) => (length results <= Z.to_nat top_k)%nat
  | (_, _, inl _) => True
  end.
Proof.
  unfold retrieve. run_monad.
  destruct (index st) as [ix|]; destruct (chunks st) as [|c cs];
    simpl; try lia.
  destruct (model st) as [m|]; simpl; [|exact I].
  search_cases.
  rewrite <- (length_faiss_search ix (normalize_L2 (encode_one m query)) top_k).
  apply length_collect_le.
Qed.

(** [retrieve] returns its results ranked by similarity, highest first:
    every result scores at least as high as every later one. *)
Theorem retrieve_ranked_descending (normalize_L2 : Vec -> Vec) (max_search_k : Z)
    (query : string) (top_k : Z) (st : RAGService) :
  match retrieve normalize_L2 max_search_k query top_k st with
  | (_, _, inr results) =>
      StronglySorted (fun a b => py_le (snd b) (snd a) = true) results
  | (_, _, inl _) => True
  end.
Proof.
  unfold retrieve. run_monad.
  destruct (index st) as [ix|]; destruct (chunks st) as [|c cs];
    simpl; try constructor.
  destruct (model st) as [m|]; simpl; [|exact I].
  search_cases.
  apply collect_sorted, faiss_search_sorted.
Qed.

Lemma Forall_firstn {A} (P : A -> Prop) (n : nat) (l : list A) :
  Forall P l -> Forall P (firstn n l).
Proof.
  intro H. apply Forall_forall. intros x Hx. rewrite Forall_forall in H.
  apply H. rewrite <- (firstn_skipn n l). apply in_or_app. now left.
Qed.

(** With one index entry per chunk and an index of the width of the model's
    embeddings, [retrieve(query, top_k)] for a [top_k > 0] the machine can
    allocate results for returns exactly [min(top_k, len(chunks))] results. *)
Theorem retrieve_paired_count (normalize_L2 : Vec -> Vec) (max_search_k : Z)
    (query : string) (top_k : Z) (st : RAGService) (ix : Index) (m : Model)
    (Hix : index st = Some ix) (Hm : model st = Some m)
    (Hpair : ntotal ix = length (chunks st))
    (Hdim : length (encode_one m query) = ix_dim ix)
    (Hk : (0 < top_k)%Z) (Hcap : (top_k <= max_search_k)%Z) :
  exists evs results,
    retrieve normalize_L2 max_search_k query top_k st = (evs, st, inr results)
    /\ length results = Nat.min (Z.to_nat top_k) (length (chunks st)).
Proof.
  destruct (chunks st) as [|c cs] eqn:Hcs.
  - exists [], []. split; [|simpl; lia].
    apply retrieve_unloaded_empty. now right.
  - rewrite (retrieve_loaded normalize_L2 max_search_k query top_k st ix m c cs
               Hix Hcs Hm Hdim Hk Hcap).
    eexists _, _. split; [reflexivity|].
    rewrite Hcs. unfold faiss_search.
    set (scored := combine _ _).
    assert (Hlen : length (rank scored) = length (c :: cs)).
    { rewrite (Permutation_length (rank_perm scored)). unfold scored.
      rewrite length_combine, !length_map, length_seq.
      unfold ntotal in *. rewrite Hpair. apply Nat.min_id. }
    rewrite collect_app, collect_padding, app_nil_r.
    rewrite length_collect_in_range.
    + rewrite length_firstn, Hlen. reflexivity.
    + apply Forall_firstn.
      apply (Forall_perm _ _ _ (rank_perm scored)).
      unfold scored, ntotal in *. rewrite Hpair. apply scored_in_range.
Qed.

Local Open Scope string_scope.

Lemma retrieve_paired_count_witness :
  exists evs results,
    retrieve (fun v => v) numpy_search_limit "obesity" 3 paired_service = (evs, paired_service, inr results)
    /\ length results = Nat.min (Z.to_nat 3) (length (chunks paired_service)).
Proof.
  apply (retrieve_paired_count (fun v => v) numpy_search_limit "obesity" 3 paired_service
           two_index toy_model); try reflexivity.
  vm_compute. discriminate.
Defined.

Local Close Scope string_scope.

Lemma initialize_fresh_model (env : Env) (evs : list Event) (st : RAGService) :
  initialize env new_service = (evs, st, inr tt) ->
  exists m, model st = Some m.
Proof.
  unfold initialize. run_monad.
  destruct (env_load_model env "all-MiniLM-L6-v2") as [m|]; simpl; [|discriminate].
  destruct (env_index_file env "faiss_index.bin"); simpl;
  destruct (env_chunks_file env "chunks.pkl"); simpl;
  destruct (truthy_str (env_groq_key env)); simpl;
  intro H; injection H as _ <-; exists m; reflexivity.
Qed.

(** Once a fresh service has been initialized, [retrieve(query, top_k)] with
    a [top_k > 0] the machine can allocate results for never changes the
    service, and raises only FAISS's [assert d == self.d]: the loaded index
    does not have the width of the model's embeddings. *)
Theorem retrieve_after_initialize_dim_only (normalize_L2 : Vec -> Vec) (max_search_k : Z)
    (env : Env) (evs : list Event) (st : RAGService) (query : string) (top_k : Z)
    (Hinit : initialize env new_service = (evs, st, inr tt))
    (Hk : (0 < top_k)%Z) (Hcap : (top_k <= max_search_k)%Z) :
  exists evs' r,
    retrieve normalize_L2 max_search_k query top_k st = (evs', st, r)
    /\ forall e, r = inl e ->
       e = PyExc "AssertionError" "d == self.d"
       /\ exists ix m, index st = Some ix /\ model st = Some m
                       /\ length (encode_one m query) <> ix_dim ix.
Proof.
  destruct (initialize_fresh_model env evs st Hinit) as [m Hm].
  unfold retrieve. run_monad.
  destruct (index st) as [ix|] eqn:Hix; destruct (chunks st) as [|c cs];
    simpl; try (eexists _, _; split; [reflexivity|discriminate]).
  rewrite Hm. simpl. unfold index_search.
  destruct (Nat.eqb (length (encode_one m query)) (ix_dim ix)) eqn:Hd; simpl.
  - replace (top_k <=? 0)%Z with false by (symmetry; apply Z.leb_gt; lia).
    replace (max_search_k <? top_k)%Z with false by (symmetry; apply Z.ltb_ge; lia).
    simpl. eexists _, _. split; [reflexivity|discriminate].
  - eexists _, _. split; [reflexivity|].
    intros e He. injection He as <-. split; [reflexivity|].
    exists ix, m. split; [reflexivity|]. split; [reflexivity|].
    now apply Nat.eqb_neq.
Qed.

Local Open Scope string_scope.

Lemma retrieve_after_initialize_dim_only_witness :
  exists evs' r,
    retrieve (fun v => v) numpy_search_limit "obesity" 10
      (snd (fst (initialize mismatched_env new_service)))
    = (evs', snd (fst (initialize mismatched_env new_service)), r)
    /\ forall e, r = inl e ->
       e = PyExc "AssertionError" "d == self.d"
       /\ exists ix m, index (snd (fst (initialize mismatched_env new_service))) = Some ix
                       /\ model (snd (fst (initialize mismatched_env new_service))) = Some m
                       /\ length (encode_one m "obesity") <> ix_dim ix.
Proof.
  apply (retrieve_after_initialize_dim_only (fun v => v) numpy_search_limit mismatched_env
           (fst (fst (initialize mismatched_env new_service)))); [reflexivity|lia|].
  vm_compute. discriminate.
Defined.

Local Close Scope string_scope.

(* ------------------------------------------------------------------------- *)
(** ** What [ask] and the [/ask] handler return *)

Lemma retrieve_results_aux (normalize_L2 : Vec -> Vec) (max_search_k : Z) (query : string)
    (top_k : Z) (st : RAGService) :
  match retrieve normalize_L2 max_search_k query top_k st with
  | (_, _, inr results) =>
      (length results <= Z.to_nat top_k)%nat
      /\ Forall (fun r => in_unit (snd r)) results
      /\ StronglySorted result_desc results
  | (_, _, inl _) => True
  end.
Proof.
  unfold retrieve. run_monad.
  destruct (index st) as [ix|]; destruct (chunks st) as [|c cs];
    simpl; try (split; [lia|split; constructor]).
  destruct (model st) as [m|]; simpl; [|exact I].
  search_cases.
  split; [|split].
  - rewrite <- (length_faiss_search ix (normalize_L2 (encode_one m query)) top_k).
    apply length_collect_le.
  - apply collect_scores.
  - apply collect_sorted, faiss_search_sorted.
Qed.

Lemma sources_of_results (results : list (Chunk * PyFloat)) :
  (length results <= 10)%nat
  /\ Forall (fun r => in_unit (snd r)) results
  /\ StronglySorted result_desc results ->
  (length (map to_source results) <= 10)%nat
  /\ Forall (fun s => in_unit (similarity s)) (map to_source results)
  /\ StronglySorted source_desc (map to_source results).
Proof.
  intros [Hl [Hu Hs]]. split; [now rewrite length_map|split].
  - apply Forall_map. exact Hu.
  - clear Hl Hu. induction Hs as [|r rs Hs IH Hall]; simpl; constructor.
    + exact IH.
    + apply Forall_map. exact Hall.
Qed.

Ltac ask_tail Haux :=
  destruct (client _); simpl; [|exact I];
  match goal with
  | |- context [retrieve ?nz ?cap ?q 10 ?s] =>
      let Hr := fresh "Hr" in
      pose proof (Haux s) as Hr;
      destruct (retrieve nz cap q 10 s) as [[? ?] [?|?]]; simpl; [exact I|];
      destruct (env_complete _ _); simpl; [exact I|];
      apply sources_of_results; exact Hr
  end.

(** Whenever [ask] produces an answer, its [sources] are at most ten, each
    similarity lies in [[0, 1]], and they are ranked from the most similar
    down. *)
Theorem ask_sources_shape (normalize_L2 : Vec -> Vec) (max_search_k : Z) (env : Env)
    (query : string) (st : RAGService) :
  match ask normalize_L2 max_search_k env query st with
  | (_, _, inr (AskAnswer _ sources _)) =>
      (length sources <= 10)%nat
      /\ Forall (fun s => py_le (FNum 0) (similarity s) = true
                          /\ py_le (similarity s) (FNum 1) = true) sources
      /\ StronglySorted (fun a b => py_le (similarity b) (similarity a) = true)
           sources
  | _ => True
  end.
Proof.
  pose proof (fun s => retrieve_results_aux normalize_L2 max_search_k query 10 s) as Haux.
  unfold ask. run_monad.
  destruct (initialized st); simpl.
  - ask_tail Haux.
  - destruct (initialize env st) as [[e1 s1] [x|[]]]; simpl; [exact I|].
    ask_tail Haux.
Qed.

Lemma retrieve_model_total (normalize_L2 : Vec -> Vec) (max_search_k : Z) (query : string)
    (top_k : Z) (st : RAGService) (m : Model) :
  model st = Some m ->
  (forall ix, index st = Some ix -> length (encode_one m query) = ix_dim ix) ->
  (0 < top_k)%Z -> (top_k <= max_search_k)%Z ->
  exists evs results,
    retrieve normalize_L2 max_search_k query top_k st = (evs, st, inr results).
Proof.
  intros Hm Hdim Hk Hcap. unfold retrieve. run_monad.
  destruct (index st) as [ix|] eqn:Hix; destruct (chunks st) as [|c cs];
    simpl; try (eexists _, _; reflexivity).
  rewrite Hm. simpl. unfold index_search.
  rewrite (Hdim ix eq_refl), Nat.eqb_refl. simpl.
  replace (top_k <=? 0)%Z with false by (symmetry; apply Z.leb_gt; lia).
  replace (max_search_k <? top_k)%Z with false by (symmetry; apply Z.ltb_ge; lia).
  simpl. eexists _, _. reflexivity.
Qed.

(** On a loaded service with a Groq client and an embedding model whose
    width is the index's dimension, on a machine that allocates ten search
    results, a failing completion call makes the [/ask] handler answer
    [HTTPException] 500 whose detail is the error text ([str(e)]), and the
    service is left as it was. *)
Theorem app_ask_completion_error (normalize_L2 : Vec -> Vec) (max_search_k : Z) (env : Env)
    (query : string) (st : RAGService) (cl : Client) (m : Model) (msg : string)
    (Hinit : initialized st = true) (Hcl : client st = Some cl)
    (Hm : model st = Some m)
    (Hdim : forall ix, index st = Some ix -> length (encode_one m query) = ix_dim ix)
    (Hcap : (10 <= max_search_k)%Z)
    (Hfail : forall prompt, env_complete env prompt = inl msg) :
  exists evs,
    app_ask normalize_L2 max_search_k env query st = (evs, st, inr (HTTPException 500 msg)).
Proof.
  destruct (retrieve_model_total normalize_L2 max_search_k query 10 st m Hm Hdim)
    as (evs & res & Hr); [lia|lia|].
  unfold app_ask. run_monad. rewrite Hinit. simpl.
  unfold ask. run_monad. rewrite Hinit, Hcl. simpl.
  rewrite Hr. simpl. rewrite Hfail. simpl.
  eexists. reflexivity.
Qed.

Local Open Scope string_scope.

Lemma app_ask_completion_error_witness :
  exists evs,
    app_ask (fun v => v) numpy_search_limit (failing_env "rate limit") "obesity"
      (snd (fst (initialize (failing_env "rate limit") new_service)))
    = (evs, snd (fst (initialize (failing_env "rate limit") new_service)),
       inr (HTTPException 500 "rate limit")).
Proof.
  apply (app_ask_completion_error (fun v => v) numpy_search_limit (failing_env "rate limit")
           "obesity" _ {| api_key := "gsk_test" |} toy_model);
    [reflexivity|reflexivity|reflexivity| |vm_compute; discriminate|reflexivity].
  intros ix Hix. vm_compute in Hix. injection Hix as <-. reflexivity.
Defined.

Local Close Scope string_scope.

(** When the lazy initialization of the [/ask] handler cannot load the
    embedding model, the handler raises after printing the loading line
    only, and the service is left exactly as it was, still uninitialized:
    the next request tries to initialize again. *)
Theorem app_ask_load_failure (normalize_L2 : Vec -> Vec) (max_search_k : Z) (env : Env)
    (query : string) (st : RAGService)
    (Hinit : initialized st = false)
    (Hload : env_load_model env (model_name st) = None) :
  exists e,
    app_ask normalize_L2 max_search_k env query st
    = ([Print ("Loading embedding model: " ++ model_name st ++ "...")%string],
       st, inl e).
Proof.
  unfold app_ask. run_monad. rewrite Hinit. simpl.
  unfold initialize. run_monad. rewrite Hinit. simpl. rewrite Hload. simpl.
  eexists. reflexivity.
Qed.

Local Open Scope string_scope.

Lemma app_ask_load_failure_witness :
  exists e,
    app_ask (fun v => v) numpy_search_limit offline_env "obesity" new_service
    = ([Print "Loading embedding model: all-MiniLM-L6-v2..."], new_service, inl e).
Proof.
  apply (app_ask_load_failure (fun v => v) numpy_search_limit offline_env "obesity" new_service);
    reflexivity.
Defined.

(** A fresh service ends its initialization without a Groq client exactly
    when [GROQ_API_KEY] is unset or empty; otherwise its client holds the
    key. *)
Theorem initialize_client_iff_key (env : Env) (evs : list Event) (st : RAGService)
    (Hinit : initialize env new_service = (evs, st, inr tt)) :
  match env_groq_key env with
  | Some k => if String.eqb k "" then client st = None
              else client st = Some {| api_key := k |}
  | None => client st = None
  end.
Proof.
  revert Hinit. unfold initialize. run_monad.
  destruct (env_load_model env "all-MiniLM-L6-v2") as [m|]; simpl; [|discriminate].
  destruct (env_index_file env "faiss_index.bin"); simpl;
  destruct (env_chunks_file env "chunks.pkl"); simpl;
  unfold truthy_str;
  destruct (env_groq_key env) as [k|]; simpl; try (destruct (String.eqb k ""));
  simpl; intro H; injection H as _ <-; reflexivity.
Qed.

Lemma initialize_client_iff_key_witness :
  client (snd (fst (initialize mismatched_env new_service)))
  = Some {| api_key := "gsk_test" |}.
Proof.
  apply (initialize_client_iff_key mismatched_env
           (fst (fst (initialize mismatched_env new_service)))).
  reflexivity.
Defined.

Local Close Scope string_scope.

(* ------------------------------------------------------------------------- *)
(** ** The asset generator: risk flags and row counts *)

Local Open Scope string_scope.

Lemma alert_iff_risk_aux (row : Row) :
  (exists rest, row_to_text row = profile_header row ++ alert_line row ++ rest)
  <-> notna (get row "composite_risk" PyNone) = true.
Proof.
  destruct (notna (get row "composite_risk" PyNone)) eqn:Hrisk.
  - split; [reflexivity|intros _].
    assert (Hp : sprefix (profile_header row ++ alert_line row) (row_to_text row)).
    { unfold row_to_text; cbv zeta; rewrite Hrisk.
      destruct (notna (get row "Description" PyNone)),
               (notna (get row "Rule_Description" PyNone));
        strip_suffixes. }
    destruct Hp as [rest Hp]. exists rest. now rewrite Hp, sapp_assoc.
  - split; [|discriminate]. intros [rest Hrest].
    assert (Hp : sprefix (profile_header row ++ "- ") (row_to_text row)).
    { unfold row_to_text; cbv zeta; rewrite Hrisk.
      assert (Hd : forall r, sprefix (profile_header row ++ "- ")
        (profile_header row ++ ("- Demographics: Population: " ++ r)))
        by (intro r; apply (sprefix_mid (profile_header row) "- ")).
      destruct (notna (get row "Description" PyNone)),
               (notna (get row "Rule_Description" PyNone));
        repeat first [ apply Hd | apply sprefix_app ]. }
    destruct Hp as [r Hp]. rewrite Hp, !sapp_assoc in Hrest.
    apply sapp_cancel_l in Hrest. discriminate Hrest.
Qed.

Local Close Scope string_scope.

Lemma generate_assets_chunks (normalize_L2 : Vec -> Vec) (m : Model)
    (main_csv : list Row) (worst_csv : option (list Row)) (art : Artifacts) :
  generate_assets normalize_L2 m main_csv worst_csv = Some art ->
  art_chunks art
  = map (fun '(i, row) =>
          {| text := row_to_text row; metadata := row_metadata row;
             chunk_id := i |})
        (iterrows (combined_frame main_csv worst_csv)).
Proof.
  unfold generate_assets.
  destruct (map normalize_L2 _); [discriminate|].
  intro H. injection H as <-. reflexivity.
Qed.

(** In every chunk the generator writes, the [is_high_risk] flag of the
    metadata is set exactly when the chunk's text carries the risk-alert
    line right after its header: flag and text come from the same row. *)
Theorem generate_assets_flag_matches_alert (normalize_L2 : Vec -> Vec)
    (m : Model) (main_csv : list Row) (worst_csv : option (list Row))
    (art : Artifacts)
    (Hgen : generate_assets normalize_L2 m main_csv worst_csv = Some art) :
  Forall (fun c => exists row,
            text c = row_to_text row /\
            (is_high_risk (metadata c) = true
             <-> exists rest, text c = (profile_header row ++ alert_line row ++ rest)%string))
    (art_chunks art).
Proof.
  rewrite (generate_assets_chunks normalize_L2 m main_csv worst_csv art Hgen).
  apply Forall_forall. intros c Hc.
  apply in_map_iff in Hc as [[i row] [<- _]].
  exists row. simpl. split; [reflexivity|].
  rewrite alert_iff_risk_aux. reflexivity.
Qed.

Local Open Scope string_scope.

Lemma generate_assets_flag_matches_alert_witness :
  exists art,
    generate_assets (fun v => v) toy_model [alpha_row]
      (Some [[("County", PyStr "Alpha"); ("State", PyStr "CA");
              ("composite_risk", PyNum "8.2")]]) = Some art /\
    Forall (fun c => exists row,
              text c = row_to_text row /\
              (is_high_risk (metadata c) = true
               <-> exists rest, text c = (profile_header row ++ alert_line row ++ rest)%string))
      (art_chunks art).
Proof.
  eexists. split; [reflexivity|].
  apply (generate_assets_flag_matches_alert (fun v => v) toy_model [alpha_row]
           (Some [[("County", PyStr "Alpha"); ("State", PyStr "CA");
                   ("composite_risk", PyNum "8.2")]])).
  reflexivity.
Defined.

Local Close Scope string_scope.

Lemma length_merge_left (main worst : DataFrame) :
  length (df_rows (merge_left main worst))
  = list_sum (map (fun r => Nat.max 1 (length (filter (same_key r) (df_rows worst))))
                  (df_rows main)).
Proof.
  unfold merge_left. cbv zeta.
  cbn [df_rows]. rewrite length_flat_map. f_equal.
  apply map_ext. intro r.
  destruct (filter (same_key r) (df_rows worst)); [reflexivity|].
  rewrite length_map. reflexivity.
Qed.

(** With a risk file, the generator writes one chunk for each match of a
    main row in the risk file on (County, State), and one for a main row
    without a match: a county listed twice in the risk file gets two
    profiles, so the chunk count exceeds the number of counties. *)
Theorem generate_assets_count_with_risk (normalize_L2 : Vec -> Vec)
    (m : Model) (main_csv worst_csv : list Row) (art : Artifacts)
    (Hgen : generate_assets normalize_L2 m main_csv (Some worst_csv) = Some art) :
  length (art_chunks art)
  = list_sum (map (fun r => Nat.max 1 (length (filter (same_key r) worst_csv)))
                  main_csv).
Proof.
  rewrite (generate_assets_chunks normalize_L2 m main_csv (Some worst_csv) art Hgen).
  unfold iterrows. rewrite combined_frame_labels, length_map, length_combine,
    length_seq, Nat.min_id.
  unfold combined_frame. rewrite length_merge_left. reflexivity.
Qed.

Local Open Scope string_scope.

Lemma generate_assets_count_with_risk_witness :
  exists art,
    generate_assets (fun v => v) toy_model [alpha_row]
      (Some [alpha_risk_row "8.2"; alpha_risk_row "9.1"]) = Some art /\
    length (art_chunks art) = 2%nat.
Proof.
  eexists. split; [reflexivity|].
  apply (generate_assets_count_with_risk (fun v => v) toy_model [alpha_row]
           [alpha_risk_row "8.2"; alpha_risk_row "9.1"]).
  reflexivity.
Defined.

Local Close Scope string_scope.

(* ------------------------------------------------------------------------- *)
(** ** The profile builder: missing values *)

Local Open Scope string_scope.

Lemma sinfix_app (s a b : string) : sinfix s a -> sinfix s (a ++ b).
Proof.
  intros (pre & post & ->). exists pre, (post ++ b).
  now rewrite !sapp_assoc.
Qed.

(** The ["N/A"] defaults of [row.get] apply only to columns the row does not
    have: a column that is present but empty in the CSV holds NaN, and the
    profile then reads ["Population: nan"]. *)
Theorem row_to_text_nan_population (row : Row)
    (Hnan : get row "Population" (PyStr "N/A") = PyNaN) :
  sinfix "- Demographics: Population: nan, Poverty Rate: " (row_to_text row).
Proof.
  unfold row_to_text; cbv zeta; rewrite Hnan.
  destruct (notna (get row "composite_risk" PyNone)),
           (notna (get row "Description" PyNone)),
           (notna (get row "Rule_Description" PyNone));
    repeat first [ solve [eexists _, _; reflexivity] | apply sinfix_app ].
Qed.

Lemma row_to_text_nan_population_witness :
  sinfix "- Demographics: Population: nan, Poverty Rate: "
    (row_to_text [("County", PyStr "Alpha"); ("State", PyStr "CA");
                  ("Population", PyNaN)]).
Proof.
  apply (row_to_text_nan_population
           [("County", PyStr "Alpha"); ("State", PyStr "CA"); ("Population", PyNaN)]).
  reflexivity.
Defined.

Local Close Scope string_scope.

(* ------------------------------------------------------------------------- *)
(** ** The [/predict] and [/predict-cluster] endpoints *)

Lemma lower_ascii_idem (c : ascii) : lower_ascii (lower_ascii c) = lower_ascii c.
Proof.
  unfold lower_ascii.
  destruct (Nat.leb 65 (nat_of_ascii c) && Nat.leb (nat_of_ascii c) 90) eqn:H.
  - apply andb_true_iff in H as [H1 H2].
    apply Nat.leb_le in H1. apply Nat.leb_le in H2.
    rewrite nat_ascii_embedding by lia.
    replace (Nat.leb (nat_of_ascii c + 32) 90) with false
      by (symmetry; apply Nat.leb_gt; lia).
    rewrite andb_false_r. reflexivity.
  - rewrite H. reflexivity.
Qed.

Lemma py_lower_idem (s : string) : py_lower (py_lower s) = py_lower s.
Proof.
  induction s as [|c s IH]; simpl; [reflexivity|].
  now rewrite lower_ascii_idem, IH.
Qed.

(** [/predict] reads [model_type] only through its lower-cased form:
    ["OBESITY"], ["Obesity"] and ["obesity"] give the same answer. *)
Theorem predict_case_insensitive {Estimator Scaler : Type}
    (preprocess : list (string * Value) -> AppExn + Vec)
    (est_predict : Estimator -> Vec -> AppExn + PyFloat)
    (inverse_scale : string -> PyFloat -> AppExn + PyFloat)
    (confidence : string -> Estimator -> Vec -> PyFloat -> PyFloat -> option string)
    (g : AppGlobals Estimator Scaler) (request : PredictionRequest) :
  predict _ _ preprocess est_predict inverse_scale confidence g request
  = predict _ _ preprocess est_predict inverse_scale confidence g
      {| model_type := py_lower (model_type request);
         features := features request |}.
Proof.
  unfold predict. simpl. rewrite py_lower_idem. reflexivity.
Qed.

Local Open Scope string_scope.

(** With the models loaded, a [model_type] other than obesity or diabetes
    does not get the 400 the handler raises: the handler's own
    [except Exception] turns it into a 500 whose detail is
    ["400: Invalid model_type"]. *)
Theorem predict_invalid_model_type_500 {Estimator Scaler : Type}
    (preprocess : list (string * Value) -> AppExn + Vec)
    (est_predict : Estimator -> Vec -> AppExn + PyFloat)
    (inverse_scale : string -> PyFloat -> AppExn + PyFloat)
    (confidence : string -> Estimator -> Vec -> PyFloat -> PyFloat -> option string)
    (g : AppGlobals Estimator Scaler) (request : PredictionRequest)
    (o : Estimator) (sc : Scaler)
    (Hobesity : MODEL_OBESITY _ _ g = Some o) (Hscaler : SCALER _ _ g = Some sc)
    (Hnot_ob : py_lower (model_type request) <> "obesity")
    (Hnot_di : py_lower (model_type request) <> "diabetes") :
  predict _ _ preprocess est_predict inverse_scale confidence g request
  = ApiError 500 "400: Invalid model_type".
Proof.
  unfold predict. rewrite Hobesity, Hscaler. cbv zeta.
  apply String.eqb_neq in Hnot_ob. apply String.eqb_neq in Hnot_di.
  rewrite Hnot_ob, Hnot_di. reflexivity.
Qed.

Lemma predict_invalid_model_type_500_witness :
  predict _ _ toy_preprocess toy_est_predict toy_inverse_scale toy_confidence toy_globals
    {| model_type := "Cancer"; features := [] |}
  = ApiError 500 "400: Invalid model_type".
Proof.
  apply (predict_invalid_model_type_500 toy_preprocess toy_est_predict
           toy_inverse_scale toy_confidence toy_globals {| model_type := "Cancer"; features := [] |}
           1%nat tt); [reflexivity|reflexivity|discriminate|discriminate].
Defined.

(** When the diabetes model was not loaded but the obesity model and the
    scaler were, a diabetes request passes the 503 guard and fails with a
    500: the [AttributeError] of calling [predict] on [None], or the error
    of the preprocessing before it. *)
Theorem predict_diabetes_unloaded_500 {Estimator Scaler : Type}
    (preprocess : list (string * Value) -> AppExn + Vec)
    (est_predict : Estimator -> Vec -> AppExn + PyFloat)
    (inverse_scale : string -> PyFloat -> AppExn + PyFloat)
    (confidence : string -> Estimator -> Vec -> PyFloat -> PyFloat -> option string)
    (g : AppGlobals Estimator Scaler) (request : PredictionRequest)
    (o : Estimator) (sc : Scaler)
    (Hobesity : MODEL_OBESITY _ _ g = Some o) (Hscaler : SCALER _ _ g = Some sc)
    (Hdiabetes : MODEL_DIABETES _ _ g = None)
    (Htype : py_lower (model_type request) = "diabetes") :
  predict _ _ preprocess est_predict inverse_scale confidence g request
  = ApiError 500 (match preprocess (features request) with
                  | inl e => exn_str e
                  | inr _ => "'NoneType' object has no attribute 'predict'"
                  end).
Proof.
  unfold predict. rewrite Hobesity, Hscaler. cbv zeta.
  rewrite Htype. simpl. rewrite Hdiabetes.
  destruct (preprocess (features request)); reflexivity.
Qed.

Lemma predict_diabetes_unloaded_500_witness :
  predict _ _ toy_preprocess toy_est_predict toy_inverse_scale toy_confidence toy_globals
    {| model_type := "Diabetes"; features := [] |}
  = ApiError 500 "'NoneType' object has no attribute 'predict'".
Proof.
  apply (predict_diabetes_unloaded_500 toy_preprocess toy_est_predict
           toy_inverse_scale toy_confidence toy_globals {| model_type := "Diabetes"; features := [] |}
           1%nat tt); reflexivity.
Defined.

(** A successful [/predict-cluster] reports exactly the seven clustering
    features, in their fixed order, and reports [0.0] for each one the
    request leaves out, sets to [None], or gives a value [float] rejects. *)
Theorem predict_cluster_features_used {Estimator Scaler : Type}
    (py_float : Value -> Exn + PyFloat)
    (scale_cluster : Scaler -> list PyFloat -> AppExn + list PyFloat)
    (kmeans_predict : Estimator -> list PyFloat -> AppExn + Z)
    (g : AppGlobals Estimator Scaler) (request : PredictionRequest)
    (cluster : Z) (used : list (string * PyFloat))
    (Hok : predict_cluster _ _ py_float scale_cluster kmeans_predict g request
           = ClusteringResponse cluster used) :
  map fst used = CLUSTERING_FEATURE_NAMES /\
  forall name, In name CLUSTERING_FEATURE_NAMES ->
    (get (features request) name PyNone = PyNone \/
     exists e, py_float (get (features request) name PyNone) = inl e) ->
    In (name, FNum 0) used.
Proof.
  revert Hok. unfold predict_cluster.
  destruct (MODEL_KMEANS _ _ g) as [km|], (SCALER_CLUSTERING _ _ g) as [sc|];
    try discriminate.
  cbv zeta.
  destruct (scale_cluster sc _); [discriminate|].
  destruct (kmeans_predict km _); [discriminate|].
  intro H. injection H as _ <-.
  split.
  - reflexivity.
  - intros name Hin Hzero.
    assert (Hx : extract_feature py_float (features request) name = FNum 0).
    { unfold extract_feature.
      destruct Hzero as [Hn | [e He]]; [now rewrite Hn|].
      destruct (get (features request) name PyNone); try reflexivity;
        now rewrite He. }
    rewrite <- Hx.
    clear Hzero Hx.
    simpl in Hin |- *.
    repeat destruct Hin as [<-|Hin];
      try (repeat (first [left; reflexivity | right])); destruct Hin.
Qed.

Lemma predict_cluster_features_used_witness :
  predict_cluster _ _ toy_float toy_scale toy_kmeans toy_globals
    {| model_type := "obesity";
       features := [("Adult_Diabetes_Rate13", PyBool true);
                    ("GROCPTH09", PyStr "many")] |}
  = ClusteringResponse 3%Z
      [("Adult_Diabetes_Rate_08", FNum 0); ("Adult_Diabetes_Rate13", FNum 1);
       ("Adult_Obesity_Rate_08", FNum 0); ("Adult_Obesity_Rate13", FNum 0);
       ("GYMs_Per_1000_Count_14", FNum 0); ("Farmers_Markets_Count_16", FNum 0);
       ("GROCPTH09", FNum 0)]
  /\ In ("GROCPTH09", FNum 0)
      [("Adult_Diabetes_Rate_08", FNum 0); ("Adult_Diabetes_Rate13", FNum 1);
       ("Adult_Obesity_Rate_08", FNum 0); ("Adult_Obesity_Rate13", FNum 0);
       ("GYMs_Per_1000_Count_14", FNum 0); ("Farmers_Markets_Count_16", FNum 0);
       ("GROCPTH09", FNum 0)].
Proof.
  split; [reflexivity|].
  apply (predict_cluster_features_used toy_float toy_scale toy_kmeans toy_globals
           {| model_type := "obesity";
              features := [("Adult_Diabetes_Rate13", PyBool true);
                           ("GROCPTH09", PyStr "many")] |} 3%Z);
    [reflexivity|simpl; tauto|right; eexists; reflexivity].
Defined.

(** [/predict-cluster] looks at nothing of the request but the seven
    clustering features: [model_type] and every other feature are
    ignored. *)
Theorem predict_cluster_only_clustering_features {Estimator Scaler : Type}
    (py_float : Value -> Exn + PyFloat)
    (scale_cluster : Scaler -> list PyFloat -> AppExn + list PyFloat)
    (kmeans_predict : Estimator -> list PyFloat -> AppExn + Z)
    (g : AppGlobals Estimator Scaler) (r1 r2 : PredictionRequest)
    (Hsame : forall name, In name CLUSTERING_FEATURE_NAMES ->
               get (features r1) name PyNone = get (features r2) name PyNone) :
  predict_cluster _ _ py_float scale_cluster kmeans_predict g r1
  = predict_cluster _ _ py_float scale_cluster kmeans_predict g r2.
Proof.
  unfold predict_cluster.
  replace (map (extract_feature py_float (features r1)) CLUSTERING_FEATURE_NAMES)
    with (map (extract_feature py_float (features r2)) CLUSTERING_FEATURE_NAMES).
  - reflexivity.
  - apply map_ext_in. intros name Hin. unfold extract_feature.
    rewrite (Hsame name Hin). reflexivity.
Qed.

Lemma predict_cluster_only_clustering_features_witness :
  predict_cluster _ _ toy_float toy_scale toy_kmeans toy_globals
    {| model_type := "obesity"; features := [("GROCPTH09", PyBool true)] |}
  = predict_cluster _ _ toy_float toy_scale toy_kmeans toy_globals
    {| model_type := "anything";
       features := [("Poverty_Rate", PyNum "20"); ("GROCPTH09", PyBool true)] |}.
Proof.
  apply (predict_cluster_only_clustering_features toy_float toy_scale toy_kmeans
           toy_globals).
  intros name Hin. simpl in Hin.
  repeat destruct Hin as [<-|Hin]; try reflexivity. destruct Hin.
Defined.

Local Close Scope string_scope.

(* ------------------------------------------------------------------------- *)
(** ** Loading the clustering data at startup *)

Lemma append_records_good (py_float : Value -> Exn + PyFloat) (py_int : Value -> Exn + Z)
    (good rest : list Row) (data : list ClusterRecord) :
  (forall r, In r good -> exists x, cluster_record py_float py_int r = inr x) ->
  append_records py_float py_int (good ++ rest) data
  = append_records py_float py_int rest
      (data ++ flat_map (fun r => match cluster_record py_float py_int r with
                                  | inr x => [x] | inl _ => [] end) good).
Proof.
  revert data. induction good as [|r good IH]; intros data Hgood; simpl.
  - now rewrite app_nil_r.
  - destruct (Hgood r (or_introl eq_refl)) as [x Hx]. rewrite Hx.
    rewrite IH by (intros r' Hr'; apply Hgood; now right).
    now rewrite <- app_assoc.
Qed.

Local Open Scope string_scope.

(** The startup loop over [worst_cluster_counties.csv] stops at the first
    row whose conversion raises: [CLUSTERING_DATA] keeps the rows before it,
    loses it and every row after it, even valid ones, and the count line is
    replaced by the error line. *)
Theorem load_clustering_stops_at_first_error
    (py_float : Value -> Exn + PyFloat) (py_int : Value -> Exn + Z)
    (good rest : list Row) (bad : Row) (data : list ClusterRecord)
    (name msg : string)
    (Hgood : forall r, In r good -> exists x, cluster_record py_float py_int r = inr x)
    (Hbad : cluster_record py_float py_int bad = inl (PyExc name msg)) :
  load_clustering_data py_float py_int (Some (app good (bad :: rest))) data
  = (app data (flat_map (fun r => match cluster_record py_float py_int r with
                                | inr x => [x] | inl _ => [] end) good),
     ["Loading clustering data from worst_cluster_counties.csv...";
      "Error loading clustering data: " ++ msg]).
Proof.
  unfold load_clustering_data.
  rewrite (append_records_good py_float py_int good (bad :: rest) data Hgood).
  simpl. rewrite Hbad. reflexivity.
Qed.

Lemma load_clustering_stops_at_first_error_witness :
  load_clustering_data toy_float toy_int
    (Some (app [worst_row "Alpha" (PyNum "1")]
               (worst_row "Beta" PyNaN :: [worst_row "Gamma" (PyNum "1")]))) []
  = ([{| cr_county := "Alpha"; cr_state := "CA"; cr_risk := FNum (41 # 5);
         cr_cluster := 1%Z |}],
     ["Loading clustering data from worst_cluster_counties.csv...";
      "Error loading clustering data: cannot convert float NaN to integer"]).
Proof.
  apply (load_clustering_stops_at_first_error toy_float toy_int
           [worst_row "Alpha" (PyNum "1")] [worst_row "Gamma" (PyNum "1")]
           (worst_row "Beta" PyNaN) [] "ValueError").
  - intros r [<-|[]]. eexists. reflexivity.
  - reflexivity.
Defined.

Local Close Scope string_scope.
